(** * The schema-driven attribute builder of [model.js]

    A shallow embedding of [buildAttributes] and [combinedSchema]
    (src/model.js) together with the parts of JavaScript and lodash they
    call, and the properties of the specification settled against them.

    Conventions of the embedding.
    - A JavaScript value is a term of [value]; a number is an IEEE-754
      binary64 ([float]), an object is the list of its own enumerable
      properties in enumeration order (keys are unique in a real object),
      an array is the list of its elements.
    - Property reads see own properties only: the members an object
      inherits from [Object.prototype] ([constructor], [toString], ...)
      are not in the model, so a schema key of such a name is outside it,
      and the properties of [getDeep] are stated for the key paths of
      [own_path], whose reads cannot meet an inherited member.
    - No value is a function: the attributes of a model are data.
    - An object with an own numeric [length] is walked by [_.each] by
      index; the properties that list what [_.each] visits are stated
      for values that are not [array_like], or for [tame] ones.
    - An exception is a result [Throw]; every function that can raise
      returns an [outcome].
    - The two lodash mixins the builder calls that are not part of the
      sources at hand, [_.parseFloat] and [_.isValidISO8601String], and
      the two printers of the JavaScript runtime, are fields of [Host]. *)

From Stdlib Require Import ZArith String Ascii List Bool Lia.
From Stdlib Require DecimalNat DecimalFacts.
From Stdlib Require Import DecimalString.
From Stdlib Require Import Floats.PrimFloat Floats.SpecFloat Floats.FloatOps.
Import ListNotations.

Local Open Scope string_scope.
Local Open Scope list_scope.
Set Warnings "-inexact-float".

(** ** JavaScript values *)

Unset Elimination Schemes.
Inductive value : Type :=
| VUndefined
| VNull
| VBool (b : bool)
| VNum (x : float)
| VStr (s : string)
| VDate (t : float)
| VArr (items : list value)
| VObj (props : list (string * value)).
Set Elimination Schemes.

(** Structural induction through the two containers. *)
Section ValueInd.
Variable P : value -> Prop.
Hypothesis Hundef : P VUndefined.
Hypothesis Hnull : P VNull.
Hypothesis Hbool : forall b, P (VBool b).
Hypothesis Hnum : forall x, P (VNum x).
Hypothesis Hstr : forall s, P (VStr s).
Hypothesis Hdate : forall t, P (VDate t).
Hypothesis Harr : forall items, Forall P items -> P (VArr items).
Hypothesis Hobj :
  forall props, Forall (fun kv => P (snd kv)) props -> P (VObj props).

Fixpoint value_induction (v : value) : P v :=
  match v with
  | VUndefined => Hundef
  | VNull => Hnull
  | VBool b => Hbool b
  | VNum x => Hnum x
  | VStr s => Hstr s
  | VDate t => Hdate t
  | VArr items =>
      Harr items
        ((fix go (l : list value) : Forall P l :=
            match l with
            | [] => Forall_nil P
            | x :: r => Forall_cons x (value_induction x) (go r)
            end) items)
  | VObj props =>
      Hobj props
        ((fix go (l : list (string * value))
            : Forall (fun kv => P (snd kv)) l :=
            match l with
            | [] => Forall_nil _
            | kv :: r => Forall_cons kv (value_induction (snd kv)) (go r)
            end) props)
  end.
End ValueInd.

(** The error a failed conversion raises. *)
Inductive error : Type := TypeError.

Inductive outcome (A : Type) : Type :=
| Ok (a : A)
| Throw (e : error).
Arguments Ok {A} a.
Arguments Throw {A} e.

Definition bind {A B} (x : outcome A) (f : A -> outcome B) : outcome B :=
  match x with
  | Ok a => f a
  | Throw e => Throw e
  end.

Notation "'let*' x ':=' c 'in' k" := (bind c (fun x => k))
  (at level 10, x name, c at level 100, k at level 200).

Fixpoint mapM {A B} (f : A -> outcome B) (l : list A) : outcome (list B) :=
  match l with
  | [] => Ok []
  | x :: r => let* y := f x in let* ys := mapM f r in Ok (y :: ys)
  end.

(** ** Numbers *)

(** The number nearest to an integer (round to nearest, ties to even). *)
Definition float_of_Z (z : Z) : float :=
  SF2Prim (binary_normalize 53 1024 z 0 false).

(** [Math.max(a, b)]: NaN if either is NaN, and [+0] is larger than [-0]. *)
Definition Math_max (a b : float) : float :=
  if is_nan a || is_nan b then nan
  else if ltb a b then b
  else if ltb b a then a
  else if get_sign a then b else a.

(** ** Property keys *)

(** The key of array index [i]: its decimal numeral. *)
Definition index_key (i : nat) : string :=
  NilZero.string_of_uint (Nat.to_uint i).

(** The index a key denotes, when it is the canonical numeral of one. *)
Definition index_of_key (k : string) : option nat :=
  match NilZero.uint_of_string k with
  | Some d =>
      let i := Nat.of_uint d in
      if String.eqb (index_key i) k then Some i else None
  | None => None
  end.

(** The first binding of [k], as a property read finds it. *)
Fixpoint lookup (k : string) (props : list (string * value)) : option value :=
  match props with
  | [] => None
  | (k', v) :: rest => if String.eqb k k' then Some v else lookup k rest
  end.

Definition keys (props : list (string * value)) : list string :=
  map fst props.

(** [props[k] = v] on the property list of an object: an existing
    property keeps its place, a new one goes last. *)
Fixpoint assign (props : list (string * value)) (k : string) (v : value)
  : list (string * value) :=
  match props with
  | [] => [(k, v)]
  | (k', v') :: rest =>
      if String.eqb k k' then (k, v) :: rest else (k', v') :: assign rest k v
  end.

(** [items[i] = v] on an array: past the end, the gap reads [undefined]. *)
Fixpoint assign_index (items : list value) (i : nat) (v : value)
  : list value :=
  match i, items with
  | O, [] => [v]
  | O, _ :: rest => v :: rest
  | S j, [] => VUndefined :: assign_index [] j v
  | S j, x :: rest => x :: assign_index rest j v
  end.

(** [o[k]] for [o] an object, an array or a date. *)
Definition get (o : value) (k : string) : value :=
  match o with
  | VObj props =>
      match lookup k props with Some v => v | None => VUndefined end
  | VArr items =>
      match index_of_key k with
      | Some i => nth i items VUndefined
      | None =>
          if String.eqb k "length"
          then VNum (float_of_Z (Z.of_nat (length items)))
          else VUndefined
      end
  | _ => VUndefined
  end.

(** [o[k] = v]; on an array only index keys are in the model. *)
Definition set (o : value) (k : string) (v : value) : value :=
  match o with
  | VObj props => VObj (assign props k v)
  | VArr items =>
      match index_of_key k with
      | Some i => VArr (assign_index items i v)
      | None => o
      end
  | _ => o
  end.

(** The characters of a string, each a one-character string. *)
Fixpoint chars (s : string) : list value :=
  match s with
  | EmptyString => []
  | String c r => VStr (String c EmptyString) :: chars r
  end.

Fixpoint indexed (i : nat) (l : list value) : list (string * value) :=
  match l with
  | [] => []
  | x :: r => (index_key i, x) :: indexed (S i) r
  end.

(** ** lodash predicates *)

Definition isObject (v : value) : bool :=
  match v with VObj _ | VArr _ | VDate _ => true | _ => false end.

Definition isPlainObject (v : value) : bool :=
  match v with VObj _ => true | _ => false end.

Definition isArray (v : value) : bool :=
  match v with VArr _ => true | _ => false end.

Definition isString (v : value) : bool :=
  match v with VStr _ => true | _ => false end.

Definition isNumber (v : value) : bool :=
  match v with VNum _ => true | _ => false end.

Definition isBoolean (v : value) : bool :=
  match v with VBool _ => true | _ => false end.

Definition isDate (v : value) : bool :=
  match v with VDate _ => true | _ => false end.

Definition isNull (v : value) : bool :=
  match v with VNull => true | _ => false end.

Definition isUndefined (v : value) : bool :=
  match v with VUndefined => true | _ => false end.

(** [_.isEmpty]: an array or a string without elements, an object without
    own properties, and every other value. *)
Definition isEmpty (v : value) : bool :=
  match v with
  | VStr s => match s with EmptyString => true | _ => false end
  | VArr items => match items with [] => true | _ => false end
  | VObj props => match props with [] => true | _ => false end
  | _ => true
  end.

(** JavaScript truthiness: what [a || b] tests. *)
Definition truthy (v : value) : bool :=
  match v with
  | VUndefined | VNull => false
  | VBool b => b
  | VNum x => negb (eqb x zero || is_nan x)
  | VStr s => match s with EmptyString => false | _ => true end
  | VDate _ | VArr _ | VObj _ => true
  end.

(** [a || b]. *)
Definition js_or (a b : value) : value := if truthy a then a else b.

(** [v === true]. *)
Definition is_true (v : value) : bool :=
  match v with VBool true => true | _ => false end.

(** [v === ''] *)
Definition is_empty_string (v : value) : bool :=
  match v with VStr EmptyString => true | _ => false end.

(** What [_.each(collection, callback)] hands to its callback, in order:
    the elements of an array under their indices, the characters of a
    string, the own properties of an object; nothing for any other value.
    (lodash walks an object that carries a numeric [length] property as if
    it were an array; such objects are outside the model, see
    [array_like] and [tame].) *)
Definition entries (v : value) : list (string * value) :=
  match v with
  | VArr items => indexed 0 items
  | VStr s => indexed 0 (chars s)
  | VObj props => props
  | _ => []
  end.

Definition each_values (v : value) : list value := map snd (entries v).

(** ** Conversions of the runtime *)

(** What the builder takes from its surroundings: the runtime's printers
    of numbers and dates (ECMAScript [Number::toString] and
    [Date.prototype.toString]), and the two mixins [_.parseFloat] and
    [_.isValidISO8601String], which the sources at hand call but do not
    define.  All four are taken as total functions. *)
Record Host : Type := {
  numberToString : float -> string;
  dateToString : float -> string;
  parseFloat : value -> float;
  isValidISO8601String : value -> bool
}.

Definition has_own (props : list (string * value)) (k : string) : bool :=
  match lookup k props with Some _ => true | None => false end.

Section Conversions.
Variable host : Host.

(** ECMAScript [ToString].  An array joins the strings of its elements
    with commas, [null] and [undefined] elements printing as nothing.  A
    plain object prints through [Object.prototype.toString] unless an
    own property hides it: no value of the model is callable, so an own
    [toString] property leaves [ToPrimitive] without a usable method and
    it raises a TypeError. *)
Fixpoint ToString (v : value) : outcome string :=
  match v with
  | VUndefined => Ok "undefined"
  | VNull => Ok "null"
  | VBool true => Ok "true"
  | VBool false => Ok "false"
  | VNum x => Ok (numberToString host x)
  | VStr s => Ok s
  | VDate t => Ok (dateToString host t)
  | VArr items =>
      (fix join (l : list value) : outcome string :=
         match l with
         | [] => Ok ""
         | x :: r =>
             let* s :=
               match x with
               | VUndefined | VNull => Ok ""
               | _ => ToString x
               end in
             match r with
             | [] => Ok s
             | _ => let* t := join r in Ok (s ++ "," ++ t)%string
             end
         end) items
  | VObj props =>
      if has_own props "toString" then Throw TypeError
      else Ok "[object Object]"
  end.
End Conversions.

(** White space that [parseInt] skips (the ASCII part of it). *)
Definition is_space (c : ascii) : bool :=
  match nat_of_ascii c with
  | 9%nat | 10%nat | 11%nat | 12%nat | 13%nat | 32%nat => true
  | _ => false
  end.

Fixpoint skip_space (s : string) : string :=
  match s with
  | String c r => if is_space c then skip_space r else s
  | EmptyString => s
  end.

Definition digit_of (c : ascii) : option Z :=
  let n := Z.of_nat (nat_of_ascii c) in
  if ((48 <=? n) && (n <=? 57))%Z then Some (n - 48)%Z
  else if ((97 <=? n) && (n <=? 122))%Z then Some (n - 87)%Z
  else if ((65 <=? n) && (n <=? 90))%Z then Some (n - 55)%Z
  else None.

(** The value of the longest prefix of digits of the radix, if any. *)
Fixpoint digits (radix : Z) (s : string) (acc : option Z) : option Z :=
  match s with
  | EmptyString => acc
  | String c r =>
      match digit_of c with
      | Some d =>
          if (d <? radix)%Z
          then digits radix r
                 (Some (radix * match acc with Some a => a | None => 0 end
                        + d)%Z)
          else acc
      | None => acc
      end
  end.

(** [parseInt(s)] on a string, radix left to the function: white space,
    a sign, a [0x] prefix for radix 16, then digits; NaN without digits. *)
Definition parseInt_string (s : string) : float :=
  let s1 := skip_space s in
  let '(negative, s2) :=
    match s1 with
    | String "-" r => (true, r)
    | String "+" r => (false, r)
    | _ => (false, s1)
    end in
  let '(radix, s3) :=
    match s2 with
    | String "0" (String "x" r) => (16%Z, r)
    | String "0" (String "X" r) => (16%Z, r)
    | _ => (10%Z, s2)
    end in
  match digits radix s3 None with
  | None => nan
  | Some n => if negative then opp (float_of_Z n) else float_of_Z n
  end.

(** [_.parseInt(v)]: the native [parseInt] of the string of [v]. *)
Definition parseInt (host : Host) (v : value) : outcome float :=
  let* s := ToString host v in Ok (parseInt_string s).

(** [_.isNaN] on the result of a parse. *)
Definition isNaN (x : float) : bool := is_nan x.

(** ** The builder (src/model.js, [buildAttributes]) *)

(** [!_.isUndefined(attrsVal) ? attrsVal :
     (!_.isUndefined(defaultsVal) ? defaultsVal : zero)] *)
Definition fallback (attrsVal defaultsVal zero : value) : value :=
  if negb (isUndefined attrsVal) then attrsVal
  else if negb (isUndefined defaultsVal) then defaultsVal
  else zero.

(** [!_.isUndefined(defaultsVal) ? defaultsVal : zero] *)
Definition orDefault (defaultsVal zero : value) : value :=
  if negb (isUndefined defaultsVal) then defaultsVal else zero.

(** [_.isObject(o) ? o[key] : null], the read that opens the loop body
    for each of [json], [defaults], [attrs] and [ignoredAttrs]. *)
Definition field (o : value) (key : string) : value :=
  if isObject o then get o key else VNull.

(** The loop over a collection with a body that either assigns
    [obj[key]] or leaves [obj] as it is, and may raise. *)
Section Each.
Variable body : string -> value -> outcome (option value).

Definition step (obj : list (string * value)) (key : string) (val : value)
  : outcome (list (string * value)) :=
  let* r := body key val in
  Ok (match r with Some v => assign obj key v | None => obj end).

Fixpoint each_props (ps : list (string * value))
  (obj : list (string * value)) : outcome (list (string * value)) :=
  match ps with
  | [] => Ok obj
  | (key, val) :: rest =>
      let* obj' := step obj key val in each_props rest obj'
  end.

Fixpoint each_items (i : nat) (l : list value)
  (obj : list (string * value)) : outcome (list (string * value)) :=
  match l with
  | [] => Ok obj
  | val :: rest =>
      let* obj' := step obj (index_key i) val in
      each_items (S i) rest obj'
  end.
End Each.

Section Builder.
Variable host : Host.

(** The body of the loop over the schema, for the schema entry
    [key: val].  [build_elem] stands for [this.buildAttributes(val[0],
    ...)] and [build_obj] for [this.buildAttributes(val, ...)].  The
    result is the value assigned to [obj[key]], or [None] where the
    body returns without assigning. *)
Definition buildKey
  (build_elem build_obj : value -> value -> value -> value -> outcome value)
  (key : string) (val : value)
  (defaults json attrs ignoredAttrs : value) : outcome (option value) :=
  let jsonVal := field json key in
  let defaultsVal := field defaults key in
  let attrsVal := field attrs key in
  let ignoredAttrsVal := field ignoredAttrs key in
  if is_true ignoredAttrsVal then Ok None
  else if isObject val && isEmpty val then
    Ok (Some (fallback attrsVal defaultsVal (VObj [])))
  else
    match val with
    | VArr items =>
        if isNull jsonVal || isUndefined jsonVal then
          Ok (Some (fallback attrsVal defaultsVal (VArr [])))
        else
          let val0 := nth 0 items VUndefined in
          if isString val0 || isEmpty val0 then
            Ok (Some (js_or jsonVal attrsVal))
          else if isEmpty jsonVal then
            Ok (Some (orDefault defaultsVal (VArr [])))
          else
            let* built :=
              mapM (fun jsonKeyVal =>
                      build_elem defaultsVal jsonKeyVal attrsVal
                        ignoredAttrsVal)
                (each_values jsonVal) in
            Ok (Some (VArr built))
    | VObj _ | VDate _ =>
        if isNull jsonVal || isUndefined jsonVal then
          Ok (Some (fallback attrsVal defaultsVal (VObj [])))
        else if isEmpty jsonVal then
          Ok (Some (orDefault defaultsVal (VObj [])))
        else
          let* built :=
            build_obj defaultsVal jsonVal attrsVal ignoredAttrsVal in
          Ok (Some built)
    | VStr tag =>
        if String.eqb tag "integer" || String.eqb tag "uinteger" then
          if is_empty_string jsonVal then
            Ok (Some (orDefault defaultsVal (VNum zero)))
          else
            let* intNumber := parseInt host jsonVal in
            if isNaN intNumber then
              Ok (Some (fallback attrsVal defaultsVal (VNum zero)))
            else
              Ok (Some (VNum (if String.eqb tag "uinteger"
                              then Math_max intNumber zero
                              else intNumber)))
        else if String.eqb tag "float" || String.eqb tag "ufloat" then
          if is_empty_string jsonVal then
            Ok (Some (orDefault defaultsVal (VNum zero)))
          else
            let floatNumber := parseFloat host jsonVal in
            if isNaN floatNumber then
              Ok (Some (fallback attrsVal defaultsVal (VNum zero)))
            else
              Ok (Some (VNum (if String.eqb tag "ufloat"
                              then Math_max floatNumber zero
                              else floatNumber)))
        else if String.eqb tag "boolean" then
          if negb (isBoolean jsonVal) then
            Ok (Some (fallback attrsVal defaultsVal (VBool false)))
          else Ok (Some jsonVal)
        else if String.eqb tag "id" then
          if negb (isString jsonVal) && negb (isNull jsonVal) then
            Ok (Some (fallback attrsVal defaultsVal VNull))
          else Ok (Some jsonVal)
        else if String.eqb tag "string" then
          if negb (isString jsonVal) && negb (isNull jsonVal) then
            Ok (Some (fallback attrsVal defaultsVal VNull))
          else Ok (Some jsonVal)
        else if String.eqb tag "timestamp" then
          if is_empty_string jsonVal then
            Ok (Some (orDefault defaultsVal VNull))
          else if negb (isNumber jsonVal) && negb (isNull jsonVal) then
            Ok (Some (fallback attrsVal defaultsVal VNull))
          else Ok (Some jsonVal)
        else if String.eqb tag "date" then
          if negb (isValidISO8601String host jsonVal)
             && negb (isDate jsonVal) && negb (isNull jsonVal) then
            Ok (Some (fallback attrsVal defaultsVal VNull))
          else Ok (Some jsonVal)
        else Ok (Some jsonVal)
    | _ => Ok None
    end.

(** A schema that is no collection has no entry to build from. *)
Definition build_nothing (_ _ _ _ : value) : outcome value := Ok (VObj []).

(** [buildAttributes(schema, defaults, json, attrs, ignoredAttrs)]:
    [obj] starts empty, the body runs once per entry of the schema, and
    [obj] is returned.  The recursion follows the schema: into [val]
    for an object node and into [val[0]] for an array node. *)
Fixpoint buildAttributes (schema defaults json attrs ignoredAttrs : value)
  {struct schema} : outcome value :=
  let body (key : string) (val : value) :=
    buildKey
      (match val with
       | VArr (val0 :: _) => buildAttributes val0
       | _ => build_nothing
       end)
      (match val with
       | VObj _ => buildAttributes val
       | _ => build_nothing
       end)
      key val defaults json attrs ignoredAttrs in
  let* obj :=
    match schema with
    | VObj props => each_props body props []
    | VArr items => each_items body 0 items []
    | VStr s =>
        each_props
          (fun key val =>
             buildKey build_nothing build_nothing key val
               defaults json attrs ignoredAttrs)
          (indexed 0 (chars s)) []
    | _ => Ok []
    end in
  Ok (VObj obj).

(** The loop body as [buildAttributes] runs it, for any entry. *)
Definition body (defaults json attrs ignoredAttrs : value)
  (key : string) (val : value) : outcome (option value) :=
  buildKey
    (match val with
     | VArr (val0 :: _) => buildAttributes val0
     | _ => build_nothing
     end)
    (match val with
     | VObj _ => buildAttributes val
     | _ => build_nothing
     end)
    key val defaults json attrs ignoredAttrs.
End Builder.

(** ** Merging the schemas (src/model.js, [combinedSchema]) *)

(** The loop of lodash's [baseMerge] over the properties of the source:
    [object[key] = merged(object[key], source[key])]. *)
Section MergeLoop.
Variable merged : value -> value -> value.

Fixpoint merge_props (ps : list (string * value)) (object : value) : value :=
  match ps with
  | [] => object
  | (key, src) :: rest =>
      merge_props rest (set object key (merged (get object key) src))
  end.

Fixpoint merge_items (i : nat) (l : list value) (object : value) : value :=
  match l with
  | [] => object
  | src :: rest =>
      merge_items (S i) rest
        (set object (index_key i) (merged (get object (index_key i)) src))
  end.
End MergeLoop.

(** lodash's [baseMerge(object, source)]: an array or plain object of the
    source is merged into the destination's value of the same kind (a
    fresh one when the destination has none), any other source value
    replaces the destination's value unless it is [undefined]. *)
Fixpoint baseMerge (object source : value) {struct source} : value :=
  let merged (value0 src : value) : value :=
    match src with
    | VArr _ => baseMerge (if isArray value0 then value0 else VArr []) src
    | VObj _ =>
        baseMerge (if isPlainObject value0 then value0 else VObj []) src
    | VUndefined => value0
    | _ => src
    end in
  match source with
  | VArr items => merge_items merged 0 items object
  | VObj props => merge_props merged props object
  | _ => object
  end.

(** What [baseMerge] stores under a key. *)
Definition merged (value0 src : value) : value :=
  match src with
  | VArr _ => baseMerge (if isArray value0 then value0 else VArr []) src
  | VObj _ => baseMerge (if isPlainObject value0 then value0 else VObj []) src
  | VUndefined => value0
  | _ => src
  end.

(** [_.merge(object, source)]: the destination, updated in place. *)
Definition merge (object source : value) : value :=
  if isObject object then baseMerge object source else object.

(** [combinedSchema]: [schema] and [baseSchema] are the values
    [_.result(this, 'schema')] and [_.result(this, 'baseSchema')]; the
    first is merged into and returned. *)
Definition combinedSchema (schema baseSchema : value) : value :=
  merge schema baseSchema.

(** ** A host to run examples on *)

(** The integer part of a finite number and whether it is the whole of it. *)
Definition integer_part (x : float) : option (Z * bool) :=
  match Prim2SF x with
  | S754_zero _ => Some (0%Z, true)
  | S754_finite s m e =>
      let sgn (z : Z) := if s then Z.opp z else z in
      match e with
      | Zneg p =>
          Some (sgn (Z.shiftr (Zpos m) (Zpos p)),
                Z.eqb (Z.land (Zpos m) (Z.ones (Zpos p))) 0)
      | _ => Some (sgn (Z.shiftl (Zpos m) e), true)
      end
  | _ => None
  end.

Definition string_of_Z (z : Z) : string :=
  NilZero.string_of_int (Z.to_int z).

(** A printer of numbers that is exact on NaN, the infinities and the
    integers below 10^21 (from where JavaScript writes an exponent), and
    prints a fraction as its integer part followed by [.5], which is
    enough for [parseInt]: it stops at the point. *)
Definition sample_numberToString (x : float) : string :=
  match integer_part x with
  | Some (z, true) => string_of_Z z
  | Some (z, false) =>
      ((if ltb x zero && Z.eqb z 0 then "-" else "")
         ++ string_of_Z z ++ ".5")%string
  | None =>
      if is_nan x then "NaN"
      else if ltb x zero then "-Infinity" else "Infinity"
  end.

(** The shape [YYYY-MM-DDTHH:mm:ss.SSSZ]. *)
Fixpoint matches_shape (shape s : string) : bool :=
  match shape, s with
  | EmptyString, EmptyString => true
  | String p shape', String c s' =>
      (if Ascii.eqb p "9"
       then match digit_of c with
            | Some d => (d <? 10)%Z
            | None => false
            end
       else Ascii.eqb p c)
      && matches_shape shape' s'
  | _, _ => false
  end.

Definition sample_host : Host := {|
  numberToString := sample_numberToString;
  dateToString := fun _ => "Invalid Date";
  parseFloat := fun v =>
    match v with
    | VNum x => x
    | VStr s => parseInt_string s
    | _ => nan
    end;
  isValidISO8601String := fun v =>
    match v with
    | VStr s => matches_shape "9999-99-99T99:99:99.999Z" s
    | _ => false
    end
|}.

(** ** Inputs the model covers *)

(** An object that [_.each] walks by index and not by its properties:
    lodash reads [collection.length] and, when that is a number, visits
    [collection[0]] up to [collection[length - 1]].  An array and a
    string are walked that way too, and [entries] lists them so; a plain
    object with an own numeric [length] is the one value [entries] does
    not list as lodash visits it. *)
Definition array_like (v : value) : bool :=
  match v with
  | VObj props =>
      match lookup "length" props with
      | Some (VNum _) => true
      | _ => false
      end
  | _ => false
  end.

(** A value none of whose objects has an own property named [toString]
    or [length]: the first defeats the conversion to a string, the
    second makes lodash walk the object as an array. *)
Fixpoint tame (v : value) : bool :=
  match v with
  | VArr items => forallb tame items
  | VObj props =>
      negb (has_own props "toString") && negb (has_own props "length")
      && forallb (fun '(_, x) => tame x) props
  | _ => true
  end.

(** The legal schema nodes: a leaf-tag string, an array of legal nodes,
    an object whose values are legal nodes. *)
Fixpoint legal_node (val : value) : bool :=
  match val with
  | VStr _ => true
  | VArr items => forallb legal_node items
  | VObj props => forallb (fun '(_, x) => legal_node x) props
  | _ => false
  end.

(** A schema all of whose values are legal nodes. *)
Definition legal_values (schema : value) : Prop :=
  forall key val, In (key, val) (entries schema) -> legal_node val = true.

(** The keys of the own properties of a value. *)
Definition own_keys (v : value) : list string := keys (entries v).

(** An empty container marker, [[]] or [{}]. *)
Definition is_marker (val : value) : bool :=
  match val with VArr [] | VObj [] => true | _ => false end.

(** The value each fallback chain of the loop body ends in. *)
Definition zero_value (val : value) : value :=
  match val with
  | VArr [] => VObj []
  | VArr _ => VArr []
  | VStr tag =>
      if String.eqb tag "integer" || String.eqb tag "uinteger"
         || String.eqb tag "float" || String.eqb tag "ufloat"
      then VNum zero
      else if String.eqb tag "boolean" then VBool false
      else VNull
  | _ => VObj []
  end.

(** The leaf tags whose coercer starts from a parse or a boolean test,
    so that a [null] input is a failure and not a value. *)
Definition rejects_null (val : value) : bool :=
  match val with
  | VStr tag =>
      String.eqb tag "integer" || String.eqb tag "uinteger"
      || String.eqb tag "float" || String.eqb tag "ufloat"
      || String.eqb tag "boolean"
  | _ => true
  end.

(** The numeric tags and [timestamp]: the tags with an empty-string rule. *)
Definition resets_on_empty (tag : string) : bool :=
  String.eqb tag "integer" || String.eqb tag "uinteger"
  || String.eqb tag "float" || String.eqb tag "ufloat"
  || String.eqb tag "timestamp".

(** Nodes whose output does not depend on a second pass: the markers and
    the leaf tags without an empty-string rule. *)
Definition stable_node (val : value) : bool :=
  match val with
  | VStr tag => negb (resets_on_empty tag)
  | _ => is_marker val
  end.

(** An array node whose elements are scalars: [val[0]] is a string or
    is empty. *)
Definition scalar_array (val : value) : bool :=
  match val with
  | VArr (val0 :: _) => isString val0 || isEmpty val0
  | _ => false
  end.

(** A build that returns on every tame [json]. *)
Definition returns_on_tame
  (build : value -> value -> value -> value -> outcome value) : Prop :=
  forall defaults json attrs ignoredAttrs,
    tame json = true ->
    exists r, build defaults json attrs ignoredAttrs = Ok r.

(** The recursive builds of an entry return on tame input. *)
Definition sub_returns (host : Host) (val : value) : Prop :=
  match val with
  | VObj _ => returns_on_tame (buildAttributes host val)
  | VArr (val0 :: _) => returns_on_tame (buildAttributes host val0)
  | _ => True
  end.

(** A list of keys without repetition. *)
Fixpoint distinct (l : list string) : bool :=
  match l with
  | [] => true
  | k :: r => negb (existsb (String.eqb k) r) && distinct r
  end.

(** A value whose objects have no repeated key, as every JavaScript
    object has. *)
Fixpoint well_formed (v : value) : bool :=
  match v with
  | VArr items => forallb well_formed items
  | VObj props =>
      distinct (keys props) && forallb (fun '(_, x) => well_formed x) props
  | _ => true
  end.

(** ** Example inputs *)

Definition obj (props : list (string * value)) : value := VObj props.
Definition arr (items : list value) : value := VArr items.
Definition num (z : Z) : value := VNum (float_of_Z z).

Definition account_schema : value :=
  obj [("name", VStr "string"); ("secret", VStr "string");
       ("tags", arr [VStr "string"]);
       ("profile", obj [("city", VStr "string"); ("ssn", VStr "id")])].

Definition account_json : value :=
  obj [("name", VStr "ann"); ("secret", VStr "s3");
       ("profile", obj [("city", VStr "NYC"); ("ssn", VStr "1")])].

Definition account_mask : value :=
  obj [("secret", VBool true); ("name", num 1);
       ("profile", obj [("ssn", VBool true)])].

Definition name_schema : value := obj [("name", VStr "string")].
Definition name_attrs : value := obj [("name", VStr "x")].

Definition order_schema : value :=
  obj [("count", VStr "integer"); ("name", VStr "string");
       ("paid", VStr "boolean"); ("tags", arr [VStr "string"]);
       ("addr", obj [("city", VStr "string")]); ("price", VStr "ufloat")].

Definition order_attrs : value :=
  obj [("count", num 3); ("name", VStr "x");
       ("addr", obj [("city", VStr "NYC")])].

Definition order_defaults : value :=
  obj [("count", num 10); ("paid", VBool true)].

Definition counter_schema : value := obj [("n", VStr "integer")].
Definition counter_defaults : value := obj [("n", num 10)].
Definition counter_attrs : value := obj [("n", num 3)].
Definition counter_json : value := obj [("n", VStr "")].

Definition price_schema : value := obj [("price", VStr "ufloat")].
Definition price_defaults : value := obj [("price", VNum 9.99)].
Definition price_attrs : value := obj [("price", num 50)].
Definition price_json : value := obj [("price", VStr "")].

Definition tags_schema : value := obj [("tags", arr [VStr "string"])].
Definition tags_attrs : value := obj [("tags", arr [VStr "a"; VStr "b"])].
Definition tags_json : value := obj [("tags", arr [])].

Definition untyped_schema : value := obj [("tags", arr [])].

Definition trap_json : value :=
  obj [("n", obj [("toString", num 1)])].

Definition nested_schema : value :=
  obj [("addr", obj [("city", VStr "string"); ("n", VStr "integer")])].
Definition nested_defaults : value := obj [("addr", obj [("city", VStr "X")])].
Definition nested_json : value := obj [("addr", obj [])].

Definition flat_schema : value :=
  obj [("name", VStr "string"); ("active", VStr "boolean");
       ("when", VStr "date"); ("ref", VStr "id"); ("kind", VStr "model");
       ("meta", obj []); ("hidden", VStr "string")].
Definition flat_json : value :=
  obj [("name", num 5); ("active", VStr "yes");
       ("when", VStr "2020-01-31T10:00:00.000Z"); ("kind", num 7);
       ("hidden", VStr "h")].
Definition flat_attrs : value :=
  obj [("name", VStr "ann"); ("meta", obj [("a", num 1)])].
Definition flat_defaults : value := obj [("active", VBool true)].
Definition flat_mask : value := obj [("hidden", VBool true)].
Definition flat_result : value :=
  obj [("name", VStr "ann"); ("active", VBool true);
       ("when", VStr "2020-01-31T10:00:00.000Z"); ("ref", VNull);
       ("kind", num 7); ("meta", obj [("a", num 1)])].

Definition model_schema : value :=
  obj [("title", VStr "string"); ("owner", obj [("name", VStr "string")])].
Definition base_schema : value :=
  obj [("title", VStr "integer"); ("created", VStr "date");
       ("owner", obj [("id", VStr "id")])].

(** ** Further classes of schema nodes *)

(** A schema value one of the three branches of the loop body takes:
    [_.isArray], [_.isObject] (a date is an object to lodash) or
    [_.isString]. *)
Definition has_branch (val : value) : bool :=
  match val with
  | VStr _ | VArr _ | VObj _ | VDate _ => true
  | _ => false
  end.

(** A node the builder recurses into: a non-empty object, or a
    non-empty array whose first element is neither a string nor empty. *)
Definition nested_node (val : value) : bool :=
  match val with
  | VObj (_ :: _) => true
  | VArr (val0 :: _) => negb (isString val0 || isEmpty val0)
  | _ => false
  end.

(** The tags the loop body tests for. *)
Definition known_tag (tag : string) : bool :=
  resets_on_empty tag || String.eqb tag "boolean" || String.eqb tag "id"
  || String.eqb tag "string" || String.eqb tag "date".

(** The tags whose coercer hands an invalid input to the fallback chain
    without an empty-string rule or a parse. *)
Definition checked_tag (tag : string) : bool :=
  String.eqb tag "boolean" || String.eqb tag "id" || String.eqb tag "string"
  || String.eqb tag "date".

(** The parse the body runs for a numeric tag: [_.parseInt] for
    [integer] and [uinteger], [_.parseFloat] for [float] and [ufloat]. *)
Definition parse_number (host : Host) (tag : string) (v : value)
  : outcome float :=
  if String.eqb tag "integer" || String.eqb tag "uinteger"
  then parseInt host v
  else Ok (parseFloat host v).

Definition numeric_tag (tag : string) : bool :=
  String.eqb tag "integer" || String.eqb tag "uinteger"
  || String.eqb tag "float" || String.eqb tag "ufloat".

Definition unsigned_tag (tag : string) : bool :=
  String.eqb tag "uinteger" || String.eqb tag "ufloat".

Definition account_json_other : value :=
  obj [("extra", VBool true); ("name", VStr "ann"); ("secret", VStr "other");
       ("profile", obj [("city", VStr "NYC"); ("ssn", VStr "1")])].

Definition items_schema : value :=
  obj [("items", arr [obj [("sku", VStr "string"); ("cost", VStr "string")]])].
Definition items_json : value :=
  obj [("items", arr [obj [("sku", VStr "X"); ("cost", VStr "9")]; num 5])].
Definition items_mask : value := obj [("items", obj [("cost", VBool true)])].
Definition items_result : value :=
  obj [("items", arr [obj [("sku", VStr "X")]; obj [("sku", VNull)]])].

(** ** The other methods of the model (src/model.js) *)

(** [_.cloneDeep(v)]: a copy; the values of the model have no identity,
    so the copy is the value. *)
Definition cloneDeep (v : value) : value := v.

(** [if (_.isArray(resp)) { resp = resp[0]; }] (lines 94-96). *)
Definition first_document (resp : value) : value :=
  if isArray resp then get resp (index_key 0) else resp.

(** [parse(resp)] (lines 92-108); [schema], [baseSchema] and [defaults]
    are the values [_.result] gives for them.  The builder is called
    with [resp] both as [json] and as [attrs], and without a mask. *)
Definition parse (host : Host) (schema baseSchema defaults resp : value)
  : outcome value :=
  let resp := first_document resp in
  let schema := combinedSchema schema baseSchema in
  buildAttributes host schema defaults resp resp VUndefined.

(** [toJSON()] (lines 348-351), on the model's [attributes]. *)
Definition toJSON (attributes : value) : value := cloneDeep attributes.

(** [render()] (lines 353-374): without a schema all attributes are
    returned, otherwise they are built against the schema with the
    hidden attributes as the mask. *)
Definition render (host : Host)
  (schema baseSchema defaults attributes hiddenAttributes : value)
  : outcome value :=
  let json := toJSON attributes in
  let schema := combinedSchema schema baseSchema in
  if isEmpty schema then Ok json
  else buildAttributes host schema defaults json attributes hiddenAttributes.

(** [toResponse()] (lines 344-346), an alias. *)
Definition toResponse := render.

Definition user_attributes : value :=
  obj [("name", VStr "ann"); ("password", VStr "pw"); ("age", VStr "x")].
Definition user_schema : value :=
  obj [("name", VStr "string"); ("password", VStr "string");
       ("age", VStr "integer")].
Definition user_base : value := obj [("created", VStr "date")].
Definition user_hidden : value := obj [("password", VBool true)].

(** ** Reading an attribute by key path (src/model.js, [get], [getDeep]) *)

(** [s.split(sep)] for a one-character separator: the pieces between
    the separators, at least one. *)
Fixpoint split (sep : ascii) (s : string) : list string :=
  match s with
  | EmptyString => [EmptyString]
  | String c r =>
      if Ascii.eqb c sep then EmptyString :: split sep r
      else match split sep r with
           | h :: t => String c h :: t
           | [] => [String c EmptyString]
           end
  end.

(** [val[key]] on any value: a TypeError on [null] and [undefined], a
    character or the length on a string, an own property otherwise (a
    number or a boolean has none).  The members a value inherits from
    its prototype are not in the model: [own_read] below tells the
    reads that cannot meet one. *)
Definition member (val : value) (key : string) : outcome value :=
  match val with
  | VUndefined | VNull => Throw TypeError
  | VStr s => Ok (get (VArr (chars s)) key)
  | _ => Ok (get val key)
  end.

(** The loop of [getDeep] over the keys of the path: [val = val[key]],
    leaving the loop when the value is [undefined] or [null]. *)
Fixpoint walk (path : list string) (val : value) : outcome value :=
  match path with
  | [] => Ok val
  | key :: rest =>
      let* val := member val key in
      if isUndefined val || isNull val then Ok val else walk rest val
  end.

(** [getDeep(attrs, attr)] (lines 389-421).  The last step of the
    source (lines 414-418) calls the value found when it is a function.
    No value of the model is one: the attributes are data, and a
    function can then only be found as an inherited member, which
    [own_path] below excludes. *)
Definition getDeep (attrs : value) (attr : string) : outcome value :=
  walk (split "." attr) attrs.

(** The property names every object inherits from [Object.prototype]. *)
Definition inherited_name (key : string) : bool :=
  existsb (String.eqb key)
    ["constructor"; "toString"; "toLocaleString"; "valueOf";
     "hasOwnProperty"; "isPrototypeOf"; "propertyIsEnumerable";
     "__proto__"; "__defineGetter__"; "__defineSetter__";
     "__lookupGetter__"; "__lookupSetter__"]%string.

(** The reads [val[key]] that find an own property or nothing, so that
    [member] gives what the source reads: on an object a key that
    names no member of [Object.prototype], on an array or a string an
    index or [length].  A read of a number, a boolean or a date could
    find a method of the prototype under any other name, and is left
    out. *)
Definition own_read (val : value) (key : string) : bool :=
  match val with
  | VUndefined | VNull => true
  | VObj _ => negb (inherited_name key)
  | VArr _ | VStr _ =>
      match index_of_key key with
      | Some _ => true
      | None => String.eqb key "length"
      end
  | _ => false
  end.

(** Every read of the loop of [getDeep] along [path] is an [own_read]. *)
Fixpoint own_path (path : list string) (val : value) : bool :=
  match path with
  | [] => true
  | key :: rest =>
      own_read val key
      && match member val key with
         | Ok v => if isUndefined v || isNull v then true else own_path rest v
         | Throw _ => true
         end
  end.

(** [get(attr)] (lines 380-386), on the model's [attributes]. *)
Definition model_get (attributes attr : value) : outcome value :=
  match attr with
  | VStr s => getDeep attributes s
  | _ => Ok VUndefined
  end.

Definition profile_attributes : value :=
  obj [("profile", obj [("city", VStr "NYC"); ("zip", VNull)]);
       ("profile.city", VStr "LA"); ("a.b", num 1)].

(** ** The constructor (src/model.js, lines 76-81) *)

(** [_.defaults(object, source)]: every own property of the source is
    assigned to the destination where the destination reads
    [undefined]. *)
Definition defaults_into (object source : value) : value :=
  if isObject source
  then fold_left
         (fun o '(key, src) =>
            if isUndefined (get o key) then set o key src else o)
         (entries source) object
  else object.

(** The constructor's own step, after Backbone's constructor has set
    [attributes]: [_.defaults(this.attributes, _.result(this,
    'baseDefaults'))]. *)
Definition applyBaseDefaults (attributes baseDefaults : value) : value :=
  defaults_into attributes baseDefaults.

(** ** The sync methods (src/model.js, lines 468-478 and 549-682) *)

(** [delete o[k]] on an object. *)
Definition delete_prop (o : value) (k : string) : value :=
  match o with
  | VObj props =>
      VObj (filter (fun '(k', _) => negb (String.eqb k' k)) props)
  | _ => o
  end.

(** [_.pick(options, ['require']) || {}]. *)
Definition pick_require (options : value) : value :=
  js_or
    (match options with
     | VObj props =>
         match lookup "require" props with
         | Some v => VObj [("require", v)]
         | None => VObj []
         end
     | _ => VObj []
     end)
    (VObj []).

Module Sync.

(** What the sync methods read of the model: its configuration, its
    [attributes], and [model.id] and [model.isNew()], which Backbone
    maintains. *)
Record model : Type := {
  urlRoot : string;
  idAttribute : string;
  userIdAttribute : string;
  attributes : value;
  model_id : value;
  isNew : bool
}.

(** The call a method hands to the database driver [this.db]. *)
Inductive db_call : Type :=
| insert (collection : string) (doc : value)
| findAndModify (collection : string) (query update options : value)
| remove (collection : string) (query : value)
| findOne (collection : string) (query options : value).

(** A method either makes its call, or reports an [Error] of the given
    message to [options.error] and throws it, or raises. *)
Inductive result : Type :=
| Called (c : db_call)
| Failed (message : string)
| Raised (e : error).

(** [query[this.idAttribute] = model.id], then
    [query[this.userIdAttribute] = model.get(this.userIdAttribute)]
    when that is truthy. *)
Definition id_query (m : model) : outcome value :=
  let query := set (VObj []) (idAttribute m) (model_id m) in
  let* user := model_get (attributes m) (VStr (userIdAttribute m)) in
  if truthy user then
    let* user := model_get (attributes m) (VStr (userIdAttribute m)) in
    Ok (set query (userIdAttribute m) user)
  else Ok query.

Definition calling (q : outcome value) (call : value -> db_call) : result :=
  match q with
  | Ok query => Called (call query)
  | Throw e => Raised e
  end.

(** [create] (lines 549-556). *)
Definition create (m : model) (options : value) : result :=
  Called (insert (urlRoot m) (toJSON (attributes m))).

(** [update] (lines 560-585): the document replaces the stored one. *)
Definition update (m : model) (options : value) : result :=
  if isNew m then Failed "No ID for Model"
  else
    calling (id_query m) (fun query =>
      findAndModify (urlRoot m) query (toJSON (attributes m))
        (pick_require options)).

(** [patch] (lines 589-624): the attributes but the id, under [$set]. *)
Definition patch (m : model) (options : value) : result :=
  if isNew m then Failed "No ID for Model"
  else
    calling (id_query m) (fun query =>
      let attrs := delete_prop (toJSON (attributes m)) (idAttribute m) in
      findAndModify (urlRoot m) query (VObj [("$set", attrs)])
        (pick_require options)).

(** [delete] (lines 627-647). *)
Definition delete (m : model) (options : value) : result :=
  if isNew m then Failed "No ID for Model"
  else
    Called (remove (urlRoot m)
              (set (VObj []) (idAttribute m) (model_id m))).




End Sync.


(** ** The routes of a CRUD controller (src/crud_controller.js) *)

(** [table[key]] and [table[key] = v] on an object used as a table. *)
Fixpoint table_get {A} (t : list (string * A)) (k : string) : option A :=
  match t with
  | [] => None
  | (k', v) :: rest => if String.eqb k k' then Some v else table_get rest k
  end.

Fixpoint table_set {A} (t : list (string * A)) (k : string) (v : A)
  : list (string * A) :=
  match t with
  | [] => [(k, v)]
  | (k', v') :: rest =>
      if String.eqb k k' then (k, v) :: rest else (k', v') :: table_set rest k v
  end.

Module CrudController.

(** The controller's actions a route can name. *)
Inductive handler : Type :=
| count | create | find | findOne | update | destroy.

Record route : Type := {
  action : handler;
  middleware : value;
  allowedParams : value;
  requiredParams : value;
  disallowedParams : value
}.

(** [this.routes]: one table from path to route per HTTP method. *)
Record routes : Type := {
  get : list (string * route);
  post : list (string * route);
  put : list (string * route);
  patch : list (string * route);
  delete : list (string * route)
}.

Section Routes.
(** [this.getRouteOption(action, option)], of the parent controller,
    which is not part of the sources at hand. *)
Variable getRouteOption : string -> string -> value.

(** The route object each case of the switch builds. *)
Definition entry (a : handler) (name : string) : route := {|
  action := a;
  middleware := getRouteOption name "middleware";
  allowedParams := getRouteOption name "allowedParams";
  requiredParams := getRouteOption name "requiredParams";
  disallowedParams := getRouteOption name "disallowedParams"
|}.

(** [basePath()] (lines 33-35). *)
Definition basePath (path urlRoot : string) : string :=
  (path ++ urlRoot)%string.

(** The body of the loop over [this.crud] (lines 48-124): the switch on
    the action letter. *)
Definition register (base : string) (rs : routes) (letter : string)
  : routes :=
  if String.eqb letter "T" then
    {| get := table_set (get rs) (base ++ "/count")%string
                (entry count "count");
       post := post rs; put := put rs; patch := patch rs;
       delete := delete rs |}
  else if String.eqb letter "C" then
    {| get := get rs;
       post := table_set (post rs) base (entry create "create");
       put := put rs; patch := patch rs; delete := delete rs |}
  else if String.eqb letter "R" then
    {| get := table_set (get rs) (base ++ ".:format?")%string
                (entry find "find");
       post := post rs; put := put rs; patch := patch rs;
       delete := delete rs |}
  else if String.eqb letter "O" then
    {| get := table_set (get rs) (base ++ "/:id.:format?")%string
                (entry findOne "findOne");
       post := post rs; put := put rs; patch := patch rs;
       delete := delete rs |}
  else if String.eqb letter "U" then
    {| get := get rs; post := post rs;
       put := table_set (put rs) (base ++ "/:id")%string
                (entry update "update");
       patch := patch rs; delete := delete rs |}
  else if String.eqb letter "P" then
    {| get := get rs; post := post rs; put := put rs;
       patch := table_set (patch rs) (base ++ "/:id")%string
                  (entry update "update");
       delete := delete rs |}
  else if String.eqb letter "D" then
    {| get := get rs; post := post rs; put := put rs; patch := patch rs;
       delete := table_set (delete rs) (base ++ "/:id")%string
                   (entry destroy "destroy") |}
  else rs.

(** [setupRoutes()] (lines 40-125); [inherited] is [this.routes] as the
    parent's [setupRoutes] leaves it. *)
Definition setupRoutes (path urlRoot : string) (crud : list string)
  (inherited : routes) : routes :=
  fold_left (register (basePath path urlRoot)) crud inherited.
End Routes.

End CrudController.

(** Whether an action letter is among [this.crud]. *)
Definition has_letter (letter : string) (crud : list string) : bool :=
  existsb (String.eqb letter) crud.

Definition no_routes : CrudController.routes := {|
  CrudController.get := []; CrudController.post := [];
  CrudController.put := []; CrudController.patch := [];
  CrudController.delete := []
|}.

Definition no_options (_ _ : string) : value := VUndefined.

(** ** The lock (src/model.js, lines 529-547) *)

(** What [lock] and [unlock] come to: a rejection with an [Error] of
    the given message, the model as it is ([Promise.resolve(this)]), or
    the model saved with the attributes given, after
    [this.set('locked', ...)]. *)
Inductive locking : Type :=
| Rejected (message : string)
| Untouched (attributes : value)
| Saved (attributes : value)
| Broken (e : error).

Definition lock (attributes : value) : locking :=
  match model_get attributes (VStr "locked") with
  | Throw e => Broken e
  | Ok locked =>
      if truthy locked then Rejected "Model already locked."
      else Saved (set attributes "locked" (VBool true))
  end.

Definition unlock (attributes : value) : locking :=
  match model_get attributes (VStr "locked") with
  | Throw e => Broken e
  | Ok locked =>
      if negb (truthy locked) then Untouched attributes
      else Saved (set attributes "locked" (VBool false))
  end.

(** * Properties *)

(** ** Property lists *)

Lemma lookup_assign (props : list (string * value)) (k k' : string) (v : value) :
  lookup k' (assign props k v)
  = if String.eqb k' k then Some v else lookup k' props.
Proof.
  induction props as [|[k0 v0] rest IH]; simpl.
  - destruct (String.eqb k' k); reflexivity.
  - destruct (String.eqb k k0) eqn:E; simpl.
    + apply String.eqb_eq in E; subst k0.
      destruct (String.eqb k' k); reflexivity.
    + destruct (String.eqb k' k0) eqn:E'; [|exact IH].
      apply String.eqb_eq in E'; subst k0.
      rewrite String.eqb_sym, E. reflexivity.
Qed.

Lemma keys_assign (props : list (string * value)) (k k' : string) (v : value) :
  In k' (keys (assign props k v)) <-> k' = k \/ In k' (keys props).
Proof.
  induction props as [|[k0 v0] rest IH]; simpl.
  - intuition.
  - destruct (String.eqb k k0) eqn:E; simpl.
    + apply String.eqb_eq in E; subst k0. intuition.
    + unfold keys in IH. rewrite IH. intuition.
Qed.

Lemma lookup_In (props : list (string * value)) (k : string) (v : value) :
  lookup k props = Some v -> In (k, v) props.
Proof.
  induction props as [|[k0 v0] rest IH]; simpl; [discriminate|].
  destruct (String.eqb k k0) eqn:E.
  - apply String.eqb_eq in E; subst k0. intros [= ->]. now left.
  - auto.
Qed.

Lemma lookup_None (props : list (string * value)) (k : string) :
  lookup k props = None <-> ~ In k (keys props).
Proof.
  induction props as [|[k0 v0] rest IH]; simpl; [intuition|].
  destruct (String.eqb k k0) eqn:E.
  - apply String.eqb_eq in E; subst k0. split; [discriminate|intuition].
  - apply String.eqb_neq in E. unfold keys in IH. rewrite IH.
    intuition congruence.
Qed.

Lemma lookup_NoDup (props : list (string * value)) (k : string) (v : value) :
  NoDup (keys props) -> In (k, v) props -> lookup k props = Some v.
Proof.
  induction props as [|[k0 v0] rest IH]; simpl; [contradiction|].
  intros Hnd [H|H].
  - injection H as -> ->. now rewrite String.eqb_refl.
  - inversion Hnd as [|? ? Hnotin Hnd']; subst.
    destruct (String.eqb k k0) eqn:E.
    + apply String.eqb_eq in E; subst k0. exfalso. apply Hnotin.
      apply (in_map fst) in H. exact H.
    + auto.
Qed.

(** ** The loop over the schema *)

Section EachFacts.
Variable b : string -> value -> outcome (option value).

Lemma each_items_indexed (l : list value) :
  forall i obj, each_items b i l obj = each_props b (indexed i l) obj.
Proof.
  induction l as [|x r IH]; intros i obj; simpl; [reflexivity|].
  destruct (step b obj (index_key i) x); simpl; [apply IH|reflexivity].
Qed.

Lemma each_props_body (ps : list (string * value)) :
  forall obj r, each_props b ps obj = Ok r ->
  forall key val, In (key, val) ps -> exists ov, b key val = Ok ov.
Proof.
  induction ps as [|[k0 v0] rest IH]; intros obj r H key val Hin;
    [contradiction|].
  simpl in H. unfold step in H.
  destruct (b k0 v0) as [ov|] eqn:E; simpl in H; [|discriminate].
  destruct Hin as [Hin|Hin].
  - injection Hin as <- <-. eauto.
  - eapply IH; eauto.
Qed.

Lemma each_props_returns (ps : list (string * value)) :
  (forall key val, In (key, val) ps -> exists ov, b key val = Ok ov) ->
  forall obj, exists r, each_props b ps obj = Ok r.
Proof.
  induction ps as [|[k0 v0] rest IH]; intros Hb obj; simpl; [eauto|].
  destruct (Hb k0 v0 (or_introl eq_refl)) as [ov E].
  unfold step. rewrite E. simpl.
  apply IH. intros key val Hin. apply Hb. now right.
Qed.

Lemma each_props_keys (ps : list (string * value)) :
  forall obj r, each_props b ps obj = Ok r ->
  forall k, In k (keys r) <->
    In k (keys obj)
    \/ exists val v, In (k, val) ps /\ b k val = Ok (Some v).
Proof.
  induction ps as [|[k0 v0] rest IH]; intros obj r H k.
  - simpl in H. injection H as <-. split; [auto|].
    intros [Hk|(val & v & [] & _)]. exact Hk.
  - simpl in H. unfold step in H.
    destruct (b k0 v0) as [ov|] eqn:E; simpl in H; [|discriminate].
    rewrite (IH _ _ H k). destruct ov as [v|].
    + rewrite keys_assign. split.
      * intros [[->|Hk]|(val & w & Hin & Hb)].
        -- right. exists v0, v. split; [now left|exact E].
        -- now left.
        -- right. exists val, w. split; [now right|exact Hb].
      * intros [Hk|(val & w & [Hin|Hin] & Hb)].
        -- left. now right.
        -- injection Hin as <- <-. left. now left.
        -- right. eauto.
    + split.
      * intros [Hk|(val & w & Hin & Hb)]; [now left|].
        right. exists val, w. split; [now right|exact Hb].
      * intros [Hk|(val & w & [Hin|Hin] & Hb)]; [now left| |right; eauto].
        injection Hin as <- <-. congruence.
Qed.

Lemma each_props_other (ps : list (string * value)) :
  forall obj r, each_props b ps obj = Ok r ->
  forall k, ~ In k (keys ps) -> lookup k r = lookup k obj.
Proof.
  induction ps as [|[k0 v0] rest IH]; intros obj r H k Hk.
  - simpl in H. now injection H as <-.
  - simpl in H. unfold step in H.
    destruct (b k0 v0) as [ov|] eqn:E; simpl in H; [|discriminate].
    simpl in Hk.
    rewrite (IH _ _ H k) by tauto.
    destruct ov as [v|]; [|reflexivity].
    rewrite lookup_assign.
    destruct (String.eqb k k0) eqn:E'; [|reflexivity].
    apply String.eqb_eq in E'. subst k0. tauto.
Qed.

Lemma each_props_lookup (ps : list (string * value)) :
  forall obj r, each_props b ps obj = Ok r ->
  NoDup (keys ps) ->
  forall k val, In (k, val) ps ->
  exists ov, b k val = Ok ov
    /\ lookup k r = match ov with Some v => Some v | None => lookup k obj end.
Proof.
  induction ps as [|[k0 v0] rest IH]; intros obj r H Hnd k val Hin;
    [contradiction|].
  simpl in H. unfold step in H.
  destruct (b k0 v0) as [ov|] eqn:E; simpl in H; [|discriminate].
  inversion Hnd as [|? ? Hnotin Hnd']; subst.
  destruct Hin as [Hin|Hin].
  - injection Hin as <- <-. exists ov. split; [exact E|].
    rewrite (each_props_other _ _ _ H k0 Hnotin).
    destruct ov as [v|]; [|reflexivity].
    now rewrite lookup_assign, String.eqb_refl.
  - destruct (IH _ _ H Hnd' k val Hin) as (ov' & Hb & Hl).
    exists ov'. split; [exact Hb|]. rewrite Hl.
    destruct ov' as [w|]; [reflexivity|].
    destruct ov as [v|]; [|reflexivity].
    rewrite lookup_assign.
    destruct (String.eqb k k0) eqn:E'; [|reflexivity].
    apply String.eqb_eq in E'. subst k0. exfalso. apply Hnotin.
    apply (in_map fst) in Hin. exact Hin.
Qed.
End EachFacts.

Lemma each_props_ext (b1 b2 : string -> value -> outcome (option value))
  (ps : list (string * value)) :
  (forall key val, In (key, val) ps -> b1 key val = b2 key val) ->
  forall obj, each_props b1 ps obj = each_props b2 ps obj.
Proof.
  induction ps as [|[k0 v0] rest IH]; intros Hb obj; simpl; [reflexivity|].
  unfold step. rewrite (Hb k0 v0 (or_introl eq_refl)).
  destruct (b2 k0 v0); simpl; [|reflexivity].
  apply IH. intros key val Hin. apply Hb. now right.
Qed.

Lemma indexed_In (l : list value) :
  forall i key val, In (key, val) (indexed i l) -> In val l.
Proof.
  induction l as [|x r IH]; intros i key val H; simpl in *; [exact H|].
  destruct H as [H|H]; [injection H as _ <-; now left|right; eauto].
Qed.

Lemma chars_VStr (s : string) (val : value) :
  In val (chars s) -> exists c, val = VStr c.
Proof.
  induction s as [|c r IH]; simpl; [contradiction|].
  intros [<-|H]; eauto.
Qed.

(** The builder is its loop body run over the entries of the schema. *)
Lemma buildAttributes_unfold (host : Host)
  (schema defaults json attrs ignoredAttrs : value) :
  buildAttributes host schema defaults json attrs ignoredAttrs
  = let* obj :=
      each_props (body host defaults json attrs ignoredAttrs)
        (entries schema) [] in
    Ok (VObj obj).
Proof.
  destruct schema; try reflexivity.
  - simpl. f_equal. apply each_props_ext.
    intros key val Hin. apply indexed_In in Hin.
    apply chars_VStr in Hin. destruct Hin as [c ->]. reflexivity.
  - simpl. rewrite each_items_indexed. reflexivity.
Qed.

(** ** The loop body *)

Ltac break_if :=
  match goal with
  | |- context [if ?c then _ else _] => destruct c eqn:?
  | H : context [if ?c then _ else _] |- _ => destruct c eqn:?
  end.

Ltac break_bind :=
  match goal with
  | H : context [bind ?x _] |- _ => destruct x eqn:?; simpl in H
  | |- context [bind ?x _] => destruct x eqn:?; simpl
  end.

Section BodyFacts.
Variable host : Host.
Variables build_elem build_obj :
  value -> value -> value -> value -> outcome value.

Lemma buildKey_ignored (key : string) (val defaults json attrs ignoredAttrs : value) :
  is_true (field ignoredAttrs key) = true ->
  buildKey host build_elem build_obj key val defaults json attrs ignoredAttrs
  = Ok None.
Proof. intros H. unfold buildKey. now rewrite H. Qed.

Lemma buildKey_assigns (key : string) (val defaults json attrs ignoredAttrs : value)
  (ov : option value) :
  legal_node val = true ->
  is_true (field ignoredAttrs key) = false ->
  buildKey host build_elem build_obj key val defaults json attrs ignoredAttrs
  = Ok ov ->
  exists v, ov = Some v.
Proof.
  intros Hlegal Hign H. unfold buildKey in H. rewrite Hign in H.
  destruct val; try discriminate Hlegal;
    repeat first [break_if | break_bind];
    first [discriminate H | injection H as <-; eauto].
Qed.

Lemma buildKey_marker (key : string) (val defaults json attrs ignoredAttrs : value) :
  is_marker val = true ->
  is_true (field ignoredAttrs key) = false ->
  buildKey host build_elem build_obj key val defaults json attrs ignoredAttrs
  = Ok (Some (fallback (field attrs key) (field defaults key) (VObj []))).
Proof.
  intros Hm Hign. unfold buildKey. rewrite Hign.
  destruct val as [| | | | | |[|]|[|]]; try discriminate Hm; reflexivity.
Qed.
End BodyFacts.

Lemma buildAttributes_object (host : Host)
  (schema defaults json attrs ignoredAttrs r : value) :
  buildAttributes host schema defaults json attrs ignoredAttrs = Ok r ->
  exists obj,
    r = VObj obj
    /\ each_props (body host defaults json attrs ignoredAttrs)
         (entries schema) [] = Ok obj.
Proof.
  rewrite buildAttributes_unfold. intros H.
  destruct (each_props _ _ _) as [obj|] eqn:E; simpl in H; [|discriminate].
  injection H as <-. eauto.
Qed.

(** The value built for an entry of a schema without repeated keys is
    what the result holds under the key. *)
Lemma buildAttributes_get (host : Host)
  (schema defaults json attrs ignoredAttrs r : value) (key : string) (val : value) :
  buildAttributes host schema defaults json attrs ignoredAttrs = Ok r ->
  NoDup (own_keys schema) ->
  In (key, val) (entries schema) ->
  exists ov,
    body host defaults json attrs ignoredAttrs key val = Ok ov
    /\ get r key = match ov with Some v => v | None => VUndefined end
    /\ (In key (own_keys r) <-> ov <> None).
Proof.
  intros H Hnd Hin. apply buildAttributes_object in H.
  destruct H as (obj & -> & H).
  destruct (each_props_lookup _ _ _ _ H Hnd key val Hin) as (ov & Hb & Hl).
  exists ov. split; [exact Hb|]. simpl in Hl. split.
  - simpl. rewrite Hl. now destruct ov.
  - unfold own_keys. simpl. destruct ov as [v|].
    + split; [discriminate|]. intros _.
      apply lookup_In in Hl. apply (in_map fst) in Hl. exact Hl.
    + apply lookup_None in Hl. split; [contradiction|congruence].
Qed.

(** ** Normal return on tame input *)

Lemma tame_lookup (props : list (string * value)) (k : string) (v : value) :
  forallb (fun '(_, x) => tame x) props = true ->
  lookup k props = Some v -> tame v = true.
Proof.
  intros Hall Hl. apply lookup_In in Hl.
  rewrite forallb_forall in Hall. exact (Hall _ Hl).
Qed.

Lemma tame_get (o : value) (k : string) : tame o = true -> tame (get o k) = true.
Proof.
  destruct o; simpl; try reflexivity.
  - intros Hall. destruct (index_of_key k) as [i|].
    + destruct (nth_in_or_default i items VUndefined) as [Hin | ->];
        [|reflexivity].
      rewrite forallb_forall in Hall. exact (Hall _ Hin).
    + now destruct (String.eqb k "length").
  - intros H. apply andb_prop in H. destruct H as [_ Hall].
    destruct (lookup k props) as [v|] eqn:E; [|reflexivity].
    exact (tame_lookup _ _ _ Hall E).
Qed.

Lemma tame_field (o : value) (k : string) :
  tame o = true -> tame (field o k) = true.
Proof.
  intros H. unfold field. destruct (isObject o); [|reflexivity].
  now apply tame_get.
Qed.

Lemma tame_each_values (v x : value) :
  tame v = true -> In x (each_values v) -> tame x = true.
Proof.
  unfold each_values. intros Ht Hin. apply in_map_iff in Hin.
  destruct Hin as ([k y] & <- & Hin). simpl.
  destruct v; simpl in *; try contradiction.
  - apply indexed_In in Hin. apply chars_VStr in Hin.
    now destruct Hin as [c ->].
  - apply indexed_In in Hin. rewrite forallb_forall in Ht. exact (Ht _ Hin).
  - apply andb_prop in Ht. destruct Ht as [_ Hall].
    rewrite forallb_forall in Hall. exact (Hall _ Hin).
Qed.

Lemma ToString_tame (host : Host) (v : value) :
  tame v = true -> exists s, ToString host v = Ok s.
Proof.
  induction v as [| |b|x|s|t|items IH|props IH] using value_induction;
    intros Ht; simpl;
    try (eexists; reflexivity).
  - destruct b; eauto.
  - simpl in Ht. induction items as [|x r IHr]; [eauto|].
    simpl in Ht. apply andb_prop in Ht. destruct Ht as [Hx Hr].
    inversion IH as [|? ? IHx IHrest]; subst.
    destruct (IHr IHrest Hr) as [t Et].
    assert (Hs : exists s,
      match x with
      | VUndefined | VNull => Ok ""
      | _ => ToString host x
      end = Ok s).
    { destruct (IHx Hx) as [s Es]. destruct x; eauto. }
    destruct Hs as [s Es]. rewrite Es. simpl.
    destruct r; [eauto|]. rewrite Et. simpl. eauto.
  - simpl in Ht. apply andb_prop in Ht. destruct Ht as [Ht _].
    apply andb_prop in Ht. destruct Ht as [Ht _].
    apply negb_true_iff in Ht. rewrite Ht. eauto.
Qed.

Lemma parseInt_tame (host : Host) (v : value) :
  tame v = true -> exists x, parseInt host v = Ok x.
Proof.
  intros Ht. unfold parseInt.
  destruct (ToString_tame host v Ht) as [s ->]. simpl. eauto.
Qed.

Lemma mapM_returns {A B} (f : A -> outcome B) (l : list A) :
  (forall x, In x l -> exists y, f x = Ok y) -> exists ys, mapM f l = Ok ys.
Proof.
  induction l as [|x r IH]; intros Hf; simpl; [eauto|].
  destruct (Hf x (or_introl eq_refl)) as [y ->]. simpl.
  destruct IH as [ys ->]; [intros z Hz; apply Hf; now right|].
  simpl. eauto.
Qed.

Lemma buildKey_returns (host : Host)
  (build_elem build_obj : value -> value -> value -> value -> outcome value)
  (key : string) (val defaults json attrs ignoredAttrs : value) :
  returns_on_tame build_elem -> returns_on_tame build_obj ->
  tame json = true ->
  exists ov,
    buildKey host build_elem build_obj key val defaults json attrs ignoredAttrs
    = Ok ov.
Proof.
  intros He Ho Ht. unfold buildKey.
  pose proof (tame_field json key Ht) as Htj.
  destruct (parseInt_tame host _ Htj) as [n Hn].
  assert (Hm : exists built,
    mapM (fun jsonKeyVal =>
            build_elem (field defaults key) jsonKeyVal (field attrs key)
              (field ignoredAttrs key))
      (each_values (field json key)) = Ok built).
  { apply mapM_returns. intros x Hx. apply He.
    exact (tame_each_values _ _ Htj Hx). }
  destruct Hm as [built Hm].
  destruct (Ho (field defaults key) (field json key) (field attrs key)
              (field ignoredAttrs key) Htj) as [sub Hsub].
  rewrite Hn. destruct val; simpl; repeat break_if; eauto;
    try (rewrite Hm; simpl; eauto); try (rewrite Hsub; simpl; eauto).
Qed.

Lemma build_nothing_returns : returns_on_tame build_nothing.
Proof. intros ? ? ? ? _. unfold build_nothing. eauto. Qed.

Lemma body_returns (host : Host) (ps : list (string * value)) :
  (forall key val, In (key, val) ps -> sub_returns host val) ->
  forall defaults json attrs ignoredAttrs obj,
    tame json = true ->
    exists r,
      each_props (body host defaults json attrs ignoredAttrs) ps obj = Ok r.
Proof.
  intros Hps defaults json attrs ignoredAttrs obj Ht.
  apply each_props_returns. intros key val Hin.
  specialize (Hps key val Hin). unfold body.
  apply buildKey_returns; [| |exact Ht].
  - destruct val as [| | | | | |[|val0 rest]|];
      first [exact build_nothing_returns | exact Hps].
  - destruct val; first [exact build_nothing_returns | exact Hps].
Qed.

(** On a tame [json] the builder returns, whatever the schema. *)
Lemma buildAttributes_returns (host : Host) (schema : value) :
  returns_on_tame (buildAttributes host schema).
Proof.
  assert (H : returns_on_tame (buildAttributes host schema)
              /\ sub_returns host schema); [|exact (proj1 H)].
  assert (Hrun : forall sch,
    (forall key val, In (key, val) (entries sch) -> sub_returns host val) ->
    returns_on_tame (buildAttributes host sch)).
  { intros sch Hps defaults json attrs ignoredAttrs Ht.
    rewrite buildAttributes_unfold.
    destruct (body_returns host _ Hps defaults json attrs ignoredAttrs [] Ht)
      as [r ->].
    simpl. eauto. }
  induction schema as [| |b|x|s|t|items IH|props IH] using value_induction;
    try (split; [apply Hrun; intros key val []|exact I]).
  - split; [|exact I]. apply Hrun. intros key val Hin. simpl in Hin.
    apply indexed_In in Hin. apply chars_VStr in Hin.
    destruct Hin as [c ->]. exact I.
  - rewrite Forall_forall in IH. split.
    + apply Hrun. intros key val Hin. simpl in Hin.
      apply indexed_In in Hin. exact (proj2 (IH _ Hin)).
    + destruct items as [|val0 rest]; [exact I|].
      exact (proj1 (IH val0 (or_introl eq_refl))).
  - rewrite Forall_forall in IH.
    assert (Hr : returns_on_tame (buildAttributes host (VObj props))).
    { apply Hrun. intros key val Hin. exact (proj2 (IH _ Hin)). }
    split; exact Hr.
Qed.

(** ** Checking example inputs *)

Lemma legal_values_check (schema : value) :
  forallb (fun '(_, val) => legal_node val) (entries schema) = true ->
  legal_values schema.
Proof.
  intros H key val Hin. rewrite forallb_forall in H. exact (H _ Hin).
Qed.

Lemma distinct_NoDup (l : list string) : distinct l = true -> NoDup l.
Proof.
  induction l as [|k r IH]; simpl; intros H; constructor.
  - apply andb_prop in H. destruct H as [H _].
    apply negb_true_iff in H. intros Hin.
    assert (existsb (String.eqb k) r = true); [|congruence].
    apply existsb_exists. exists k. split; [exact Hin|apply String.eqb_refl].
  - apply andb_prop in H. tauto.
Qed.

(** ** The key set of the result (C1) *)

(** C1. For a schema whose values are all legal nodes, the builder
    returns on every tame [json], and whenever it returns, the keys of
    the returned object are exactly the keys of the schema that
    [ignoredAttrs] does not map to [true]: an ignored key is absent
    whatever [json], [attrs] and [defaults] hold. *)
Theorem buildAttributes_key_set (host : Host)
  (schema defaults json attrs ignoredAttrs : value) :
  legal_values schema ->
  (tame json = true ->
   exists r,
     buildAttributes host schema defaults json attrs ignoredAttrs = Ok r)
  /\ forall r,
       buildAttributes host schema defaults json attrs ignoredAttrs = Ok r ->
       forall k,
         In k (own_keys r)
         <-> In k (own_keys schema) /\ is_true (field ignoredAttrs k) = false.
Proof.
  intros Hlegal. split; [apply buildAttributes_returns|].
  intros r H k. apply buildAttributes_object in H.
  destruct H as (props & -> & H). unfold own_keys at 1. simpl entries.
  rewrite (each_props_keys _ _ _ _ H k). split.
  - intros [[]|(val & v & Hin & Hb)]. split.
    + apply (in_map fst) in Hin. exact Hin.
    + destruct (is_true (field ignoredAttrs k)) eqn:E; [|reflexivity].
      unfold body in Hb. rewrite buildKey_ignored in Hb by exact E.
      discriminate.
  - intros [Hk Hign]. right. unfold own_keys, keys in Hk.
    apply in_map_iff in Hk. destruct Hk as ([k' val] & <- & Hin). simpl.
    destruct (each_props_body _ _ _ _ H k' val Hin) as [ov Hb].
    destruct (buildKey_assigns _ _ _ _ _ _ _ _ _ _
                (Hlegal _ _ Hin) Hign Hb) as [v ->].
    eauto.
Qed.

Lemma buildAttributes_key_set_witness :
  legal_values account_schema
  /\ (exists r,
        buildAttributes sample_host account_schema VUndefined account_json
          (obj []) account_mask = Ok r
        /\ own_keys r = ["name"; "tags"; "profile"])
  /\ forall r,
       buildAttributes sample_host account_schema VUndefined account_json
         (obj []) account_mask = Ok r ->
       forall k,
         In k (own_keys r)
         <-> In k (own_keys account_schema)
             /\ is_true (field account_mask k) = false.
Proof.
  split; [apply legal_values_check; reflexivity|].
  split; [eexists; split; vm_compute; reflexivity|].
  apply (buildAttributes_key_set sample_host account_schema VUndefined
           account_json (obj []) account_mask).
  apply legal_values_check. reflexivity.
Defined.

(** ** Only [true] suppresses a key (C10) *)

Lemma is_true_false (v : value) : v <> VBool true -> is_true v = false.
Proof. destruct v as [| |[|]| | | | |]; simpl; congruence. Qed.

(** C10. A key of the schema whose mask value is anything but the
    boolean [true] is built and present in the result; for an object
    node, and for the elements of an array-of-objects node, the mask
    value itself is the [ignoredAttrs] of the recursive build.  The
    schema is one that [_.each] walks by its properties, and the
    elements are those of a tame [json], which [_.each] visits as
    [each_values] lists them. *)
Theorem only_true_suppresses (host : Host)
  (schema defaults json attrs ignoredAttrs r : value)
  (key : string) (val : value) :
  buildAttributes host schema defaults json attrs ignoredAttrs = Ok r ->
  array_like schema = false ->
  NoDup (own_keys schema) ->
  In (key, val) (entries schema) ->
  legal_node val = true ->
  field ignoredAttrs key <> VBool true ->
  In key (own_keys r)
  /\ (isPlainObject val = true -> isEmpty val = false ->
      isNull (field json key) || isUndefined (field json key) = false ->
      isEmpty (field json key) = false ->
      buildAttributes host val (field defaults key) (field json key)
        (field attrs key) (field ignoredAttrs key) = Ok (get r key))
  /\ (forall val0 rest,
      val = VArr (val0 :: rest) ->
      tame json = true ->
      isString val0 || isEmpty val0 = false ->
      isNull (field json key) || isUndefined (field json key) = false ->
      isEmpty (field json key) = false ->
      exists built,
        mapM (fun jsonKeyVal =>
                buildAttributes host val0 (field defaults key) jsonKeyVal
                  (field attrs key) (field ignoredAttrs key))
          (each_values (field json key)) = Ok built
        /\ get r key = VArr built).
Proof.
  intros H _ Hnd Hin Hlegal Hmask. apply is_true_false in Hmask.
  destruct (buildAttributes_get _ _ _ _ _ _ _ _ _ H Hnd Hin)
    as (ov & Hb & Hget & Hkey).
  unfold body in Hb.
  destruct (buildKey_assigns _ _ _ _ _ _ _ _ _ _ Hlegal Hmask Hb) as [v ->].
  split; [apply Hkey; discriminate|]. rewrite Hget. split.
  - intros Hobj Hne Hnull Hempty. destruct val; try discriminate Hobj.
    unfold buildKey in Hb. rewrite Hmask, Hnull, Hempty in Hb.
    simpl isObject in Hb. rewrite Hne in Hb. simpl in Hb.
    break_bind; [|discriminate Hb]. now injection Hb as <-.
  - intros val0 rest -> _ Hval0 Hnull Hempty.
    unfold buildKey in Hb. rewrite Hmask, Hnull, Hempty in Hb.
    simpl in Hb. rewrite Hval0 in Hb.
    break_bind; [|discriminate Hb]. injection Hb as <-. eauto.
Qed.

Lemma only_true_suppresses_witness :
  (buildAttributes sample_host account_schema VUndefined account_json
     (obj []) account_mask
   = Ok (obj [("name", VStr "ann"); ("tags", VNull);
              ("profile", obj [("city", VStr "NYC")])])
   /\ array_like account_schema = false
   /\ NoDup (own_keys account_schema)
   /\ In ("profile", obj [("city", VStr "string"); ("ssn", VStr "id")])
        (entries account_schema)
   /\ field account_mask "profile" <> VBool true)
  /\ In "profile"
       (own_keys (obj [("name", VStr "ann"); ("tags", VNull);
                       ("profile", obj [("city", VStr "NYC")])])).
Proof.
  assert (H : buildAttributes sample_host account_schema VUndefined
                account_json (obj []) account_mask
              = Ok (obj [("name", VStr "ann"); ("tags", VNull);
                         ("profile", obj [("city", VStr "NYC")])]))
    by (vm_compute; reflexivity).
  assert (Hnd : NoDup (own_keys account_schema))
    by (apply distinct_NoDup; reflexivity).
  assert (Hin : In ("profile",
                    obj [("city", VStr "string"); ("ssn", VStr "id")])
                  (entries account_schema))
    by (simpl; tauto).
  assert (Hmask : field account_mask "profile" <> VBool true)
    by (vm_compute; discriminate).
  split; [repeat split; assumption || reflexivity|].
  exact (proj1 (only_true_suppresses sample_host account_schema VUndefined
                  account_json (obj []) account_mask _ "profile" _
                  H eq_refl Hnd Hin eq_refl Hmask)).
Defined.

(** ** A [json] that is [null] or [undefined] (C2) *)

Lemma parseInt_null (host : Host) : parseInt host VNull = Ok nan.
Proof. reflexivity. Qed.

Lemma field_null (json : value) (key : string) :
  json = VNull \/ json = VUndefined -> field json key = VNull.
Proof. intros [->| ->]; reflexivity. Qed.

Ltac case_tag tag c :=
  let E := fresh "Etag" in
  destruct (String.eqb tag c) eqn:E;
  [apply String.eqb_eq in E; subst tag|].

(** One case per tag the body tests for, and one for any other tag. *)
Ltac split_tag tag :=
  case_tag tag "integer"; [|case_tag tag "uinteger"; [|
  case_tag tag "float"; [|case_tag tag "ufloat"; [|
  case_tag tag "boolean"; [|case_tag tag "id"; [|
  case_tag tag "string"; [|case_tag tag "timestamp"; [|
  case_tag tag "date"]]]]]]]].

Lemma body_null_json (host : Host)
  (defaults json attrs ignoredAttrs : value) (key : string) (val : value) :
  json = VNull \/ json = VUndefined ->
  isNaN (parseFloat host VNull) = true ->
  legal_node val = true ->
  is_true (field ignoredAttrs key) = false ->
  body host defaults json attrs ignoredAttrs key val
  = Ok (Some (if rejects_null val
              then fallback (field attrs key) (field defaults key)
                     (zero_value val)
              else VNull)).
Proof.
  intros Hj Hpf Hlegal Hign. unfold body, buildKey.
  rewrite Hign, (field_null json key Hj).
  destruct val as [| | | |tag| |[|val0 rest]|[|p props]];
    try discriminate Hlegal; try reflexivity.
  simpl isObject. simpl andb. cbv iota. rewrite parseInt_null. simpl bind.
  rewrite Hpf. unfold rejects_null, zero_value.
  split_tag tag; simpl; rewrite ?Etag, ?Etag0, ?Etag1, ?Etag2, ?Etag3; simpl;
    try (destruct (isValidISO8601String host VNull)); reflexivity.
Qed.

Lemma body_null_json_returns (host : Host)
  (defaults json attrs ignoredAttrs : value) (key : string) (val : value) :
  json = VNull \/ json = VUndefined ->
  exists ov, body host defaults json attrs ignoredAttrs key val = Ok ov.
Proof.
  intros Hj. unfold body, buildKey. rewrite (field_null json key Hj).
  rewrite parseInt_null. simpl bind.
  destruct val; simpl; repeat break_if; eauto.
Qed.

(** C2, as the code has it.  When [json] is [null] or [undefined] the
    builder returns, and the value at each key that is not ignored is
    [attrs[key]] if defined, else [defaults[key]] if defined, else the
    empty or zero value of the node, for array and object nodes, the
    marker [{}] and the tags [integer], [uinteger], [float], [ufloat]
    and [boolean]; for [string], [id], [timestamp], [date] and any other tag
    it is [null], because the missing [json] reads as [null] at every key
    and these coercers accept [null]. *)
Theorem null_json_fallback (host : Host)
  (schema defaults json attrs ignoredAttrs : value) :
  json = VNull \/ json = VUndefined ->
  isNaN (parseFloat host VNull) = true ->
  NoDup (own_keys schema) ->
  exists r,
    buildAttributes host schema defaults json attrs ignoredAttrs = Ok r
    /\ forall key val,
         In (key, val) (entries schema) ->
         legal_node val = true ->
         val <> VArr [] ->
         is_true (field ignoredAttrs key) = false ->
         get r key
         = if rejects_null val
           then fallback (field attrs key) (field defaults key)
                  (zero_value val)
           else VNull.
Proof.
  intros Hj Hpf Hnd.
  destruct (each_props_returns
              (body host defaults json attrs ignoredAttrs) (entries schema)
              (fun key val _ =>
                 body_null_json_returns host defaults json attrs
                   ignoredAttrs key val Hj) []) as [props Hrun].
  assert (H : buildAttributes host schema defaults json attrs ignoredAttrs
              = Ok (VObj props))
    by (rewrite buildAttributes_unfold, Hrun; reflexivity).
  exists (VObj props). split; [exact H|].
  intros key val Hin Hlegal _ Hign.
  destruct (buildAttributes_get _ _ _ _ _ _ _ _ _ H Hnd Hin)
    as (ov & Hb & Hget & _).
  rewrite (body_null_json host defaults json attrs ignoredAttrs key val
             Hj Hpf Hlegal Hign) in Hb.
  injection Hb as <-. exact Hget.
Qed.

Lemma null_json_fallback_witness :
  (VNull = VNull \/ VNull = VUndefined)
  /\ isNaN (parseFloat sample_host VNull) = true
  /\ NoDup (own_keys order_schema)
  /\ exists r,
       buildAttributes sample_host order_schema order_defaults VNull
         order_attrs (obj []) = Ok r
       /\ get r "count" = num 3
       /\ get r "name" = VNull
       /\ get r "paid" = VBool true
       /\ get r "tags" = arr []
       /\ get r "addr" = obj [("city", VStr "NYC")]
       /\ get r "price" = VNum zero.
Proof.
  assert (Hnd : NoDup (own_keys order_schema))
    by (apply distinct_NoDup; reflexivity).
  split; [now left|]. split; [reflexivity|]. split; [exact Hnd|].
  destruct (null_json_fallback sample_host order_schema order_defaults VNull
              order_attrs (obj []) (or_introl eq_refl) eq_refl Hnd)
    as (r & Hr & Hkeys).
  exists r. split; [exact Hr|].
  repeat split;
    match goal with
    | |- get r ?k = _ =>
        match eval vm_compute in (lookup k (entries order_schema)) with
        | Some ?val =>
            rewrite (Hkeys k val)
              by (simpl; tauto || reflexivity || discriminate);
            vm_compute; reflexivity
        end
    end.
Defined.

(** C2 as stated fails: for the leaf tag [string] and a [null] [json],
    the value built is [null] although [attrs] holds a defined value. *)
Lemma null_json_string_counterexample :
  ~ (forall r,
       buildAttributes sample_host name_schema (obj []) VNull name_attrs
         (obj []) = Ok r ->
       get r "name"
       = fallback (field name_attrs "name") (field (obj []) "name") VNull).
Proof.
  intros H. specialize (H (obj [("name", VNull)]) eq_refl).
  vm_compute in H. discriminate H.
Qed.

(** ** The empty string at a numeric or timestamp leaf (C7, C8) *)

Lemma buildKey_empty_string (host : Host)
  (build_elem build_obj : value -> value -> value -> value -> outcome value)
  (key tag : string) (defaults json attrs ignoredAttrs : value) :
  resets_on_empty tag = true ->
  is_true (field ignoredAttrs key) = false ->
  field json key = VStr "" ->
  buildKey host build_elem build_obj key (VStr tag) defaults json attrs
    ignoredAttrs
  = Ok (Some (orDefault (field defaults key) (zero_value (VStr tag)))).
Proof.
  intros Hreset Hign Hjson. unfold buildKey. rewrite Hign, Hjson.
  revert Hreset. unfold resets_on_empty, zero_value.
  split_tag tag; simpl; intros; try discriminate; reflexivity.
Qed.

(** C7, as the code has it.  At a leaf tagged [integer], [uinteger],
    [float], [ufloat] or [timestamp], an empty-string [json] value gives
    [defaults[key]] if defined, else the zero of the tag ([0], or [null]
    for a timestamp); [attrs[key]] is not consulted. *)
Theorem empty_string_resets (host : Host)
  (schema defaults json attrs ignoredAttrs r : value) (key tag : string) :
  buildAttributes host schema defaults json attrs ignoredAttrs = Ok r ->
  NoDup (own_keys schema) ->
  In (key, VStr tag) (entries schema) ->
  resets_on_empty tag = true ->
  is_true (field ignoredAttrs key) = false ->
  field json key = VStr "" ->
  get r key = orDefault (field defaults key) (zero_value (VStr tag)).
Proof.
  intros H Hnd Hin Hreset Hign Hjson.
  destruct (buildAttributes_get _ _ _ _ _ _ _ _ _ H Hnd Hin)
    as (ov & Hb & Hget & _).
  unfold body in Hb.
  rewrite buildKey_empty_string in Hb by assumption.
  injection Hb as <-. exact Hget.
Qed.

Lemma empty_string_resets_witness :
  (buildAttributes sample_host counter_schema counter_defaults counter_json
     counter_attrs (obj []) = Ok (obj [("n", num 10)])
   /\ NoDup (own_keys counter_schema)
   /\ In ("n", VStr "integer") (entries counter_schema)
   /\ resets_on_empty "integer" = true
   /\ is_true (field (obj []) "n") = false
   /\ field counter_json "n" = VStr "")
  /\ get (obj [("n", num 10)]) "n"
     = orDefault (field counter_defaults "n") (zero_value (VStr "integer")).
Proof.
  assert (H : buildAttributes sample_host counter_schema counter_defaults
                counter_json counter_attrs (obj [])
              = Ok (obj [("n", num 10)])) by (vm_compute; reflexivity).
  assert (Hnd : NoDup (own_keys counter_schema))
    by (apply distinct_NoDup; reflexivity).
  assert (Hin : In ("n", VStr "integer") (entries counter_schema))
    by (simpl; tauto).
  split; [repeat split; assumption || reflexivity|].
  exact (empty_string_resets sample_host counter_schema counter_defaults
           counter_json counter_attrs (obj []) _ "n" "integer"
           H Hnd Hin eq_refl eq_refl eq_refl).
Defined.

(** C7 as stated fails: with [attrs] and [defaults] both defined, the
    empty string gives the default, not the attribute. *)
Lemma empty_string_attrs_counterexample :
  ~ (forall r,
       buildAttributes sample_host counter_schema counter_defaults
         counter_json counter_attrs (obj []) = Ok r ->
       get r "n"
       = fallback (field counter_attrs "n") (field counter_defaults "n")
           (VNum zero)).
Proof.
  intros H. specialize (H (obj [("n", num 10)]) eq_refl).
  vm_compute in H. discriminate H.
Qed.

(** C8. At a [ufloat] leaf with a defined default, an empty-string
    [json] value gives the default, whatever [attrs] holds. *)
Theorem ufloat_empty_string_default (host : Host)
  (schema defaults json attrs ignoredAttrs r : value) (key : string) :
  buildAttributes host schema defaults json attrs ignoredAttrs = Ok r ->
  NoDup (own_keys schema) ->
  In (key, VStr "ufloat") (entries schema) ->
  is_true (field ignoredAttrs key) = false ->
  field json key = VStr "" ->
  field defaults key <> VUndefined ->
  get r key = field defaults key.
Proof.
  intros H Hnd Hin Hign Hjson Hdef.
  destruct (buildAttributes_get _ _ _ _ _ _ _ _ _ H Hnd Hin)
    as (ov & Hb & Hget & _).
  unfold body in Hb.
  rewrite (buildKey_empty_string host _ _ key "ufloat") in Hb
    by (assumption || reflexivity).
  injection Hb as <-. rewrite Hget. unfold orDefault.
  destruct (field defaults key); try reflexivity. congruence.
Qed.

(** The scenario of the specification: schema [{price: "ufloat"}],
    defaults [{price: 9.99}], attrs [{price: 50}], json [{price: ""}]. *)
Lemma ufloat_empty_string_default_witness :
  (buildAttributes sample_host price_schema price_defaults price_json
     price_attrs (obj []) = Ok (obj [("price", VNum 9.99)])
   /\ NoDup (own_keys price_schema)
   /\ In ("price", VStr "ufloat") (entries price_schema)
   /\ is_true (field (obj []) "price") = false
   /\ field price_json "price" = VStr ""
   /\ field price_defaults "price" <> VUndefined)
  /\ get (obj [("price", VNum 9.99)]) "price" = field price_defaults "price".
Proof.
  assert (H : buildAttributes sample_host price_schema price_defaults
                price_json price_attrs (obj [])
              = Ok (obj [("price", VNum 9.99)])) by (vm_compute; reflexivity).
  assert (Hnd : NoDup (own_keys price_schema))
    by (apply distinct_NoDup; reflexivity).
  assert (Hin : In ("price", VStr "ufloat") (entries price_schema))
    by (simpl; tauto).
  assert (Hdef : field price_defaults "price" <> VUndefined)
    by (vm_compute; discriminate).
  split; [repeat split; assumption || reflexivity|].
  exact (ufloat_empty_string_default sample_host price_schema price_defaults
           price_json price_attrs (obj []) _ "price"
           H Hnd Hin eq_refl eq_refl Hdef).
Defined.

(** ** An array of scalars (C6) *)

(** C6, as the code has it.  At an array-of-scalars node with a [json]
    value that is neither [null] nor [undefined], the value built is
    [json[key] || attrs[key]]; a sequence is truthy in JavaScript even
    when it is empty, so a [json] value that is a sequence, empty or
    not, is itself the output, and [attrs[key]] is used only for a falsy
    [json] value ([false], [0], NaN, the empty string). *)
Theorem scalar_array_direct_set (host : Host)
  (schema defaults json attrs ignoredAttrs r : value)
  (key : string) (val : value) :
  buildAttributes host schema defaults json attrs ignoredAttrs = Ok r ->
  NoDup (own_keys schema) ->
  In (key, val) (entries schema) ->
  scalar_array val = true ->
  is_true (field ignoredAttrs key) = false ->
  isNull (field json key) || isUndefined (field json key) = false ->
  get r key = js_or (field json key) (field attrs key)
  /\ (isArray (field json key) = true -> get r key = field json key)
  /\ (truthy (field json key) = false -> get r key = field attrs key).
Proof.
  intros H Hnd Hin Hscalar Hign Hnull.
  destruct (buildAttributes_get _ _ _ _ _ _ _ _ _ H Hnd Hin)
    as (ov & Hb & Hget & _).
  unfold body, buildKey in Hb. rewrite Hign in Hb.
  destruct val as [| | | | | |[|val0 rest]|]; try discriminate Hscalar.
  simpl in Hscalar. simpl in Hb. rewrite Hnull, Hscalar in Hb.
  injection Hb as <-. rewrite Hget. split; [reflexivity|].
  unfold js_or. split.
  - intros Harr. destruct (field json key); try discriminate Harr.
    reflexivity.
  - intros ->. reflexivity.
Qed.

Lemma scalar_array_direct_set_witness :
  (buildAttributes sample_host tags_schema VUndefined tags_json tags_attrs
     (obj []) = Ok tags_json
   /\ NoDup (own_keys tags_schema)
   /\ In ("tags", arr [VStr "string"]) (entries tags_schema)
   /\ scalar_array (arr [VStr "string"]) = true
   /\ is_true (field (obj []) "tags") = false
   /\ isNull (field tags_json "tags") || isUndefined (field tags_json "tags")
      = false
   /\ isArray (field tags_json "tags") = true)
  /\ get tags_json "tags" = arr [].
Proof.
  assert (H : buildAttributes sample_host tags_schema VUndefined tags_json
                tags_attrs (obj []) = Ok tags_json)
    by (vm_compute; reflexivity).
  assert (Hnd : NoDup (own_keys tags_schema))
    by (apply distinct_NoDup; reflexivity).
  assert (Hin : In ("tags", arr [VStr "string"]) (entries tags_schema))
    by (simpl; tauto).
  split; [repeat split; assumption || reflexivity|].
  exact (proj1 (proj2
           (scalar_array_direct_set sample_host tags_schema VUndefined
              tags_json tags_attrs (obj []) _ "tags" _
              H Hnd Hin eq_refl eq_refl eq_refl)) eq_refl).
Defined.

(** C6 as stated fails on its own scenario: with schema
    [{tags: ["string"]}], json [{tags: []}] and attrs
    [{tags: ["a","b"]}], no [defaults] and no mask make the result
    [{tags: ["a","b"]}]. *)
Lemma empty_sequence_counterexample :
  ~ (exists defaults ignoredAttrs,
       buildAttributes sample_host tags_schema defaults tags_json tags_attrs
         ignoredAttrs = Ok (obj [("tags", arr [VStr "a"; VStr "b"])])).
Proof.
  intros (defaults & ignoredAttrs & H).
  unfold tags_schema, obj in H. simpl in H. unfold step, buildKey in H.
  destruct (is_true (field ignoredAttrs "tags")); simpl in H;
    discriminate H.
Qed.

(** ** The empty container markers (C9) *)

(** C9 on the marker [[]]: with neither [attrs] nor [defaults] holding
    the key, the value built is the empty object, not an empty sequence. *)
Theorem array_marker_builds_object (host : Host) (json : value) :
  buildAttributes host untyped_schema (obj []) json (obj []) (obj [])
  = Ok (obj [("tags", obj [])]).
Proof. reflexivity. Qed.

(** ** A value that cannot be converted to a string (C4) *)

(** C4 on a request body whose integer field is an object with an own
    [toString] property: the conversion inside [_.parseInt] raises, and
    so does the builder, whatever the host, [defaults] and [attrs]. *)
Theorem own_toString_raises (host : Host) (defaults attrs : value) :
  buildAttributes host counter_schema defaults trap_json attrs (obj [])
  = Throw TypeError.
Proof. reflexivity. Qed.

(** ** A second pass over the result (C3) *)

Ltac use_tag_tests :=
  repeat match goal with
         | E : String.eqb _ _ = false |- _ => rewrite E in *; clear E
         end.

Lemma buildKey_stable (host : Host)
  (build_elem build_obj build_elem' build_obj' :
     value -> value -> value -> value -> outcome value)
  (key : string) (val defaults json json' attrs ignoredAttrs : value)
  (ov : option value) :
  stable_node val = true ->
  buildKey host build_elem build_obj key val defaults json attrs ignoredAttrs
  = Ok ov ->
  field json' key = match ov with Some v => v | None => VUndefined end ->
  buildKey host build_elem' build_obj' key val defaults json' attrs
    ignoredAttrs
  = Ok ov.
Proof.
  intros Hst H Hf. unfold buildKey in *.
  destruct (is_true (field ignoredAttrs key)); [exact H|].
  destruct val as [| | | |tag| |[|val0 rest]|[|p props]];
    try discriminate Hst; try exact H.
  unfold stable_node, resets_on_empty in Hst. simpl isObject in *.
  simpl andb in *. cbv iota in *.
  split_tag tag; simpl in Hst; try discriminate Hst; simpl in H |- *;
    use_tag_tests; simpl in H |- *;
    try (injection H as <-; simpl in Hf; rewrite Hf; reflexivity);
    match type of H with
    | (if ?c then _ else _) = _ =>
        let E := fresh "E" in
        destruct c eqn:E; injection H as <-; simpl in Hf; rewrite Hf;
        [break_if; reflexivity|rewrite E; reflexivity]
    end.
Qed.

Lemma buildKey_stable_returns (host : Host)
  (build_elem build_obj : value -> value -> value -> value -> outcome value)
  (key : string) (val defaults json attrs ignoredAttrs : value) :
  stable_node val = true ->
  exists ov,
    buildKey host build_elem build_obj key val defaults json attrs
      ignoredAttrs = Ok ov.
Proof.
  intros Hst. unfold buildKey.
  destruct (is_true (field ignoredAttrs key)); [eauto|].
  destruct val as [| | | |tag| |[|val0 rest]|[|p props]];
    try discriminate Hst; simpl; eauto.
  unfold stable_node, resets_on_empty in Hst.
  split_tag tag; simpl in Hst; try discriminate Hst; simpl;
    use_tag_tests; simpl; repeat break_if; eauto.
Qed.

(** C3, as the code has it.  Over a schema whose every value is an empty
    container marker or a leaf tag other than [integer], [uinteger],
    [float], [ufloat] and [timestamp], the builder returns and a second
    pass over its result returns the same result. *)
Theorem stable_schema_idempotent (host : Host)
  (schema defaults json attrs ignoredAttrs : value) :
  NoDup (own_keys schema) ->
  (forall key val, In (key, val) (entries schema) -> stable_node val = true) ->
  exists r,
    buildAttributes host schema defaults json attrs ignoredAttrs = Ok r
    /\ buildAttributes host schema defaults r attrs ignoredAttrs = Ok r.
Proof.
  intros Hnd Hst.
  destruct (each_props_returns
              (body host defaults json attrs ignoredAttrs) (entries schema)
              (fun key val Hin =>
                 buildKey_stable_returns host _ _ key val defaults json
                   attrs ignoredAttrs (Hst key val Hin)) [])
    as [props Hrun].
  exists (VObj props). rewrite !buildAttributes_unfold.
  rewrite (each_props_ext
             (body host defaults (VObj props) attrs ignoredAttrs)
             (body host defaults json attrs ignoredAttrs)).
  - rewrite Hrun. split; reflexivity.
  - intros key val Hin.
    destruct (each_props_lookup _ _ _ _ Hrun Hnd key val Hin)
      as (ov & Hb & Hl).
    rewrite Hb. unfold body in *.
    eapply buildKey_stable; [exact (Hst key val Hin)|exact Hb|].
    unfold field. simpl. rewrite Hl. now destruct ov.
Qed.

Lemma stable_schema_idempotent_witness :
  (NoDup (own_keys flat_schema)
   /\ forall key val,
        In (key, val) (entries flat_schema) -> stable_node val = true)
  /\ buildAttributes sample_host flat_schema flat_defaults flat_json
       flat_attrs flat_mask = Ok flat_result
  /\ exists r,
       buildAttributes sample_host flat_schema flat_defaults flat_json
         flat_attrs flat_mask = Ok r
       /\ buildAttributes sample_host flat_schema flat_defaults r
            flat_attrs flat_mask = Ok r.
Proof.
  assert (Hnd : NoDup (own_keys flat_schema))
    by (apply distinct_NoDup; reflexivity).
  assert (Hst : forall key val,
            In (key, val) (entries flat_schema) -> stable_node val = true).
  { intros key val Hin. simpl in Hin.
    repeat (destruct Hin as [Hin|Hin];
            [injection Hin as <- <-; reflexivity|]).
    contradiction. }
  split; [split; assumption|]. split; [vm_compute; reflexivity|].
  exact (stable_schema_idempotent sample_host flat_schema flat_defaults
           flat_json flat_attrs flat_mask Hnd Hst).
Defined.

(** C3 as stated fails: an empty [json] object at an object node is
    replaced by the default, which a second pass then normalises. *)
Lemma second_pass_counterexample :
  ~ (forall r,
       buildAttributes sample_host nested_schema nested_defaults nested_json
         (obj []) (obj []) = Ok r ->
       buildAttributes sample_host nested_schema nested_defaults r
         (obj []) (obj []) = Ok r).
Proof.
  intros H.
  specialize (H (obj [("addr", obj [("city", VStr "X")])]) eq_refl).
  vm_compute in H. discriminate H.
Qed.

(** ** Merging the base schema into the schema (C5) *)

Lemma baseMerge_object (object : value) (props : list (string * value)) :
  baseMerge object (VObj props) = merge_props merged props object.
Proof. reflexivity. Qed.

Lemma merge_props_object (f : value -> value -> value)
  (ps : list (string * value)) :
  forall o, exists o',
    merge_props f ps (VObj o) = VObj o'
    /\ (forall k, In k (keys o) -> In k (keys o'))
    /\ (forall k, In k (keys ps) -> In k (keys o'))
    /\ (forall k, ~ In k (keys ps) -> lookup k o' = lookup k o)
    /\ (NoDup (keys ps) ->
        forall k src, In (k, src) ps ->
        lookup k o' = Some (f (get (VObj o) k) src)).
Proof.
  induction ps as [|[k0 src0] rest IH]; intros o.
  - exists o. repeat split; auto; contradiction.
  - cbn [merge_props]. unfold set at 1.
    destruct (IH (assign o k0 (f (get (VObj o) k0) src0)))
      as (o' & -> & Hold & Hnew & Hother & Hin).
    exists o'. split; [reflexivity|]. split; [|split; [|split]].
    + intros k Hk. apply Hold. apply keys_assign. now right.
    + intros k Hk. cbn [keys map fst In] in Hk.
      destruct Hk as [<-|Hk]; [|now apply Hnew].
      apply Hold. apply keys_assign. now left.
    + intros k Hk. cbn [keys map fst In] in Hk.
      rewrite Hother by tauto. rewrite lookup_assign.
      destruct (String.eqb k k0) eqn:E; [|reflexivity].
      apply String.eqb_eq in E. subst k0. tauto.
    + intros Hnd k src Hk. cbn [keys map fst] in Hnd.
      inversion Hnd as [|? ? Hnotin Hnd']; subst.
      cbn [In] in Hk. destruct Hk as [Hk|Hk].
      * injection Hk as <- <-. rewrite Hother by exact Hnotin.
        now rewrite lookup_assign, String.eqb_refl.
      * rewrite (Hin Hnd' k src Hk). cbn [get]. rewrite lookup_assign.
        destruct (String.eqb k k0) eqn:E; [|reflexivity].
        apply String.eqb_eq in E. subst k0. exfalso. apply Hnotin.
        apply (in_map fst) in Hk. exact Hk.
Qed.

Lemma index_of_key_index_key (i : nat) : index_of_key (index_key i) = Some i.
Proof.
  unfold index_of_key, index_key.
  assert (Hnn : Nat.to_uint i <> Decimal.Nil).
  { rewrite <- (DecimalNat.Unsigned.of_to i) at 1.
    rewrite DecimalNat.Unsigned.to_of. apply DecimalFacts.unorm_nonnil. }
  rewrite (NilZero.usu _ Hnn), DecimalNat.Unsigned.of_to.
  now rewrite String.eqb_refl.
Qed.

Lemma assign_fresh (props : list (string * value)) (k : string) (v : value) :
  ~ In k (keys props) -> assign props k v = props ++ [(k, v)].
Proof.
  induction props as [|[k0 v0] rest IH]; simpl; intros Hk; [reflexivity|].
  destruct (String.eqb k k0) eqn:E.
  - apply String.eqb_eq in E. subst k0. tauto.
  - rewrite IH by tauto. reflexivity.
Qed.

Lemma assign_index_end (items : list value) (v : value) :
  assign_index items (length items) v = items ++ [v].
Proof.
  induction items as [|x rest IH]; simpl; [reflexivity|]. now rewrite IH.
Qed.

Lemma merge_props_fresh (f : value -> value -> value)
  (ps : list (string * value)) :
  (forall k src, In (k, src) ps -> f VUndefined src = src) ->
  forall acc,
    NoDup (keys (acc ++ ps)) ->
    merge_props f ps (VObj acc) = VObj (acc ++ ps).
Proof.
  induction ps as [|[k0 src0] rest IH]; intros Hf acc Hnd.
  - now rewrite List.app_nil_r.
  - cbn [merge_props].
    assert (Hk0 : ~ In k0 (keys acc)).
    { unfold keys in *. rewrite map_app in Hnd.
      apply NoDup_remove_2 in Hnd. intros Hin. apply Hnd.
      apply in_or_app. now left. }
    assert (Hl : get (VObj acc) k0 = VUndefined).
    { simpl. apply lookup_None in Hk0. now rewrite Hk0. }
    rewrite Hl, (Hf k0 src0 (or_introl eq_refl)). simpl set.
    rewrite assign_fresh by exact Hk0.
    rewrite IH.
    + now rewrite <- List.app_assoc.
    + intros k src Hin. apply (Hf k). now right.
    + now rewrite <- List.app_assoc.
Qed.

Lemma merge_items_fresh (f : value -> value -> value) (items : list value) :
  (forall src, In src items -> f VUndefined src = src) ->
  forall acc,
    merge_items f (length acc) items (VArr acc) = VArr (acc ++ items).
Proof.
  induction items as [|src0 rest IH]; intros Hf acc.
  - now rewrite List.app_nil_r.
  - cbn [merge_items]. unfold get, set.
    rewrite index_of_key_index_key.
    rewrite (nth_overflow acc VUndefined (Nat.le_refl _)).
    rewrite (Hf src0 (or_introl eq_refl)), assign_index_end.
    replace (S (length acc)) with (length (acc ++ [src0]))
      by (rewrite List.length_app; simpl; lia).
    rewrite IH by (intros src Hin; apply Hf; now right).
    now rewrite <- List.app_assoc.
Qed.

(** Merged into an absent entry, a well-formed entry is copied. *)
Lemma merged_fresh (src : value) :
  well_formed src = true -> merged VUndefined src = src.
Proof.
  induction src as [| |b|x|s|t|items IH|props IH] using value_induction;
    intros Hwf; try reflexivity.
  - change (merge_items merged (length (@nil value)) items (VArr [])
            = VArr ([] ++ items)).
    apply merge_items_fresh. intros src Hin.
    rewrite Forall_forall in IH. apply (IH _ Hin).
    simpl in Hwf. rewrite forallb_forall in Hwf. exact (Hwf _ Hin).
  - change (merge_props merged props (VObj []) = VObj ([] ++ props)).
    simpl in Hwf. apply andb_prop in Hwf. destruct Hwf as [Hd Hall].
    apply merge_props_fresh; [|apply distinct_NoDup; exact Hd].
    intros k src Hin. rewrite Forall_forall in IH.
    apply (IH _ Hin). rewrite forallb_forall in Hall. exact (Hall _ Hin).
Qed.

(** C5, as the code has it.  [_.merge(schema, baseSchema)] writes the
    base schema over the schema: every key of either is a key of the
    result; a key the base schema lacks keeps the schema's entry; for a
    key of the base schema the entry is the base's merged over the
    schema's, so a leaf tag of the base replaces whatever the schema
    had (on a conflict the base schema takes precedence), and a key of
    the base schema alone is added with the base's entry. *)
Theorem combinedSchema_base_wins (schema base : list (string * value)) :
  NoDup (keys base) ->
  (forall k,
     In k (own_keys (combinedSchema (VObj schema) (VObj base)))
     <-> In k (keys schema) \/ In k (keys base))
  /\ (forall k, ~ In k (keys base) ->
      get (combinedSchema (VObj schema) (VObj base)) k = get (VObj schema) k)
  /\ (forall k src, In (k, src) base ->
      get (combinedSchema (VObj schema) (VObj base)) k
      = merged (get (VObj schema) k) src)
  /\ (forall k tag, In (k, VStr tag) base ->
      get (combinedSchema (VObj schema) (VObj base)) k = VStr tag)
  /\ (forall k src, In (k, src) base -> ~ In k (keys schema) ->
      well_formed src = true ->
      get (combinedSchema (VObj schema) (VObj base)) k = src).
Proof.
  intros Hnd. unfold combinedSchema, merge. simpl isObject. cbv iota.
  rewrite baseMerge_object.
  destruct (merge_props_object merged base schema)
    as (o' & -> & Hold & Hnew & Hother & Hin).
  assert (Hget : forall k src, In (k, src) base ->
            get (VObj o') k = merged (get (VObj schema) k) src).
  { intros k src Hk. simpl. now rewrite (Hin Hnd k src Hk). }
  split; [|split; [|split; [|split]]].
  - intros k. unfold own_keys. simpl entries. split.
    + intros Hk. destruct (in_dec string_dec k (keys base)) as [Hb|Hb];
        [now right|left].
      destruct (lookup k o') as [v|] eqn:E.
      * rewrite Hother in E by exact Hb. apply lookup_In in E.
        apply (in_map fst) in E. exact E.
      * apply lookup_None in E. contradiction.
    + intros [Hk|Hk]; [now apply Hold|now apply Hnew].
  - intros k Hk. simpl. now rewrite Hother.
  - exact Hget.
  - intros k tag Hk. now rewrite (Hget k (VStr tag) Hk).
  - intros k src Hk Hfresh Hwf. rewrite (Hget k src Hk).
    apply lookup_None in Hfresh. simpl. rewrite Hfresh.
    now apply merged_fresh.
Qed.

Lemma combinedSchema_base_wins_witness :
  NoDup (keys [("title", VStr "integer"); ("created", VStr "date");
               ("owner", obj [("id", VStr "id")])])
  /\ combinedSchema model_schema base_schema
     = obj [("title", VStr "integer");
            ("owner", obj [("name", VStr "string"); ("id", VStr "id")]);
            ("created", VStr "date")]
  /\ get (combinedSchema model_schema base_schema) "title" = VStr "integer".
Proof.
  assert (Hnd : NoDup (keys [("title", VStr "integer");
                             ("created", VStr "date");
                             ("owner", obj [("id", VStr "id")])]))
    by (apply distinct_NoDup; reflexivity).
  split; [exact Hnd|]. split; [vm_compute; reflexivity|].
  apply (proj1 (proj2 (proj2 (proj2
           (combinedSchema_base_wins
              [("title", VStr "string");
               ("owner", obj [("name", VStr "string")])]
              [("title", VStr "integer"); ("created", VStr "date");
               ("owner", obj [("id", VStr "id")])] Hnd))))).
  simpl. tauto.
Defined.

(** C5 as stated fails: where both schemas have the key, the merged
    schema holds the base schema's entry, not the model's. *)
Lemma model_precedence_counterexample :
  ~ (get (combinedSchema model_schema base_schema) "title"
     = get model_schema "title").
Proof. vm_compute. discriminate. Qed.

(** * Further properties of the builder *)

(** ** Which keys are built, for any schema *)

Lemma buildKey_no_branch (host : Host)
  (build_elem build_obj : value -> value -> value -> value -> outcome value)
  (key : string) (val defaults json attrs ignoredAttrs : value) :
  has_branch val = false ->
  buildKey host build_elem build_obj key val defaults json attrs ignoredAttrs
  = Ok None.
Proof.
  intros H. unfold buildKey.
  destruct (is_true (field ignoredAttrs key)); [reflexivity|].
  destruct val; try discriminate H; reflexivity.
Qed.

Lemma buildKey_branch_assigns (host : Host)
  (build_elem build_obj : value -> value -> value -> value -> outcome value)
  (key : string) (val defaults json attrs ignoredAttrs : value)
  (ov : option value) :
  has_branch val = true ->
  is_true (field ignoredAttrs key) = false ->
  buildKey host build_elem build_obj key val defaults json attrs ignoredAttrs
  = Ok ov ->
  exists v, ov = Some v.
Proof.
  intros Hb Hign H. unfold buildKey in H. rewrite Hign in H.
  destruct val; try discriminate Hb;
    repeat first [break_if | break_bind];
    first [discriminate H | injection H as <-; eauto].
Qed.

Lemma buildAttributes_keys (host : Host)
  (schema defaults json attrs ignoredAttrs r : value) :
  buildAttributes host schema defaults json attrs ignoredAttrs = Ok r ->
  forall k,
    In k (own_keys r)
    <-> exists val,
          In (k, val) (entries schema)
          /\ has_branch val = true
          /\ is_true (field ignoredAttrs k) = false.
Proof.
  intros H k. apply buildAttributes_object in H.
  destruct H as (props & -> & H). unfold own_keys. simpl entries.
  rewrite (each_props_keys _ _ _ _ H k). split.
  - intros [[]|(val & v & Hin & Hb)]. exists val. split; [exact Hin|].
    unfold body in Hb. split.
    + destruct (has_branch val) eqn:E; [reflexivity|].
      rewrite buildKey_no_branch in Hb by exact E. discriminate.
    + destruct (is_true (field ignoredAttrs k)) eqn:E; [|reflexivity].
      rewrite buildKey_ignored in Hb by exact E. discriminate.
  - intros (val & Hin & Hb & Hign). right.
    destruct (each_props_body _ _ _ _ H k val Hin) as [ov Hov].
    destruct (buildKey_branch_assigns _ _ _ _ _ _ _ _ _ _ Hb Hign Hov)
      as [v ->].
    eauto.
Qed.

(** X1. For a schema that [_.each] walks by its properties (one
    without an own numeric [length]), whatever its values are, a key is
    in the result exactly when the schema has it with a value that is a
    string, an array, an object or a date, and the mask does not map it
    to [true]: an entry of any other kind (a number, a boolean, [null])
    is dropped without notice. *)
Theorem built_keys (host : Host)
  (schema defaults json attrs ignoredAttrs r : value) :
  array_like schema = false ->
  buildAttributes host schema defaults json attrs ignoredAttrs = Ok r ->
  forall k,
    In k (own_keys r)
    <-> exists val,
          In (k, val) (entries schema)
          /\ has_branch val = true
          /\ is_true (field ignoredAttrs k) = false.
Proof. intros _. exact (buildAttributes_keys host _ _ _ _ _ r). Qed.

Lemma built_keys_witness :
  array_like (obj [("a", VStr "string"); ("b", num 1); ("c", VNull)]) = false
  /\ buildAttributes sample_host
    (obj [("a", VStr "string"); ("b", num 1); ("c", VNull)])
    VUndefined (obj [("a", VStr "x"); ("b", VStr "y")]) VUndefined VUndefined
  = Ok (obj [("a", VStr "x")])
  /\ forall k,
       In k (own_keys (obj [("a", VStr "x")]))
       <-> exists val,
             In (k, val)
               (entries (obj [("a", VStr "string"); ("b", num 1);
                              ("c", VNull)]))
             /\ has_branch val = true
             /\ is_true (field VUndefined k) = false.
Proof.
  split; [reflexivity|]. split; [vm_compute; reflexivity|].
  apply (built_keys sample_host
           (obj [("a", VStr "string"); ("b", num 1); ("c", VNull)])
           VUndefined (obj [("a", VStr "x"); ("b", VStr "y")])
           VUndefined VUndefined _ eq_refl).
  vm_compute. reflexivity.
Defined.

(** ** What the builder reads *)

(** X2. The builder reads [json], [defaults], [attrs] and the mask only
    at the keys of the schema, and at a key the mask maps to [true] it
    reads nothing else: two calls whose inputs agree there have the
    same outcome, so no other key of a request body, and no value
    under a read-only key, can change what is built. *)
Theorem unread_inputs (host : Host)
  (schema defaults json attrs ignoredAttrs defaults' json' attrs'
     ignoredAttrs' : value) :
  (forall k val,
     In (k, val) (entries schema) ->
     field ignoredAttrs k = field ignoredAttrs' k
     /\ (is_true (field ignoredAttrs k) = true
         \/ (field defaults k = field defaults' k
             /\ field json k = field json' k
             /\ field attrs k = field attrs' k))) ->
  buildAttributes host schema defaults json attrs ignoredAttrs
  = buildAttributes host schema defaults' json' attrs' ignoredAttrs'.
Proof.
  intros Hsame. rewrite !buildAttributes_unfold. f_equal.
  apply each_props_ext. intros key val Hin.
  destruct (Hsame key val Hin) as [Hm Hrest]. unfold body, buildKey.
  rewrite <- Hm. destruct Hrest as [Hign|(Hd & Hj & Ha)].
  - now rewrite Hign.
  - now rewrite <- Hd, <- Hj, <- Ha.
Qed.

Lemma unread_inputs_witness :
  (forall k val,
     In (k, val) (entries account_schema) ->
     field account_mask k = field account_mask k
     /\ (is_true (field account_mask k) = true
         \/ (field VUndefined k = field VUndefined k
             /\ field account_json k = field account_json_other k
             /\ field (obj []) k = field (obj []) k)))
  /\ buildAttributes sample_host account_schema VUndefined account_json
       (obj []) account_mask
     = buildAttributes sample_host account_schema VUndefined
         account_json_other (obj []) account_mask.
Proof.
  assert (H : forall k val,
     In (k, val) (entries account_schema) ->
     field account_mask k = field account_mask k
     /\ (is_true (field account_mask k) = true
         \/ (field VUndefined k = field VUndefined k
             /\ field account_json k = field account_json_other k
             /\ field (obj []) k = field (obj []) k))).
  { intros k val Hin. split; [reflexivity|]. simpl in Hin.
    destruct Hin as [Hin|[Hin|[Hin|[Hin|[]]]]]; injection Hin as <- <-;
      first [left; reflexivity | right; repeat split; reflexivity]. }
  split; [exact H|].
  exact (unread_inputs sample_host account_schema VUndefined account_json
           (obj []) account_mask VUndefined account_json_other (obj [])
           account_mask H).
Defined.

(** ** Empty input at a nested node *)

(** X3. At a node the builder would recurse into (an object node, or an
    array of objects), a [json] value that is present but empty, which
    to lodash is an empty array or object and also every number,
    boolean and the empty string, resets the key to [defaults[key]], or
    to an empty container of the node's kind when there is no default;
    [attrs[key]] is not consulted. *)
Theorem nested_empty_resets (host : Host)
  (schema defaults json attrs ignoredAttrs r : value)
  (key : string) (val : value) :
  buildAttributes host schema defaults json attrs ignoredAttrs = Ok r ->
  NoDup (own_keys schema) ->
  In (key, val) (entries schema) ->
  nested_node val = true ->
  is_true (field ignoredAttrs key) = false ->
  isNull (field json key) || isUndefined (field json key) = false ->
  isEmpty (field json key) = true ->
  get r key = orDefault (field defaults key) (zero_value val).
Proof.
  intros H Hnd Hin Hnested Hign Hnull Hempty.
  destruct (buildAttributes_get _ _ _ _ _ _ _ _ _ H Hnd Hin)
    as (ov & Hb & Hget & _).
  unfold body, buildKey in Hb. rewrite Hign in Hb.
  destruct val as [| | | | | |[|val0 rest]|[|p props]];
    try discriminate Hnested; simpl in Hnested, Hb.
  - apply negb_true_iff in Hnested.
    rewrite Hnull, Hnested, Hempty in Hb. injection Hb as <-. exact Hget.
  - rewrite Hnull, Hempty in Hb. injection Hb as <-. exact Hget.
Qed.

Lemma nested_empty_resets_witness :
  (buildAttributes sample_host nested_schema nested_defaults
     (obj [("addr", num 5)]) (obj [("addr", obj [("city", VStr "A")])])
     (obj [])
   = Ok (obj [("addr", obj [("city", VStr "X")])])
   /\ NoDup (own_keys nested_schema)
   /\ isEmpty (field (obj [("addr", num 5)]) "addr") = true)
  /\ get (obj [("addr", obj [("city", VStr "X")])]) "addr"
     = orDefault (field nested_defaults "addr")
         (zero_value (obj [("city", VStr "string"); ("n", VStr "integer")])).
Proof.
  assert (H : buildAttributes sample_host nested_schema nested_defaults
                (obj [("addr", num 5)])
                (obj [("addr", obj [("city", VStr "A")])]) (obj [])
              = Ok (obj [("addr", obj [("city", VStr "X")])]))
    by (vm_compute; reflexivity).
  assert (Hnd : NoDup (own_keys nested_schema))
    by (apply distinct_NoDup; reflexivity).
  split; [repeat split; assumption || reflexivity|].
  apply (nested_empty_resets sample_host nested_schema nested_defaults
           (obj [("addr", num 5)])
           (obj [("addr", obj [("city", VStr "A")])]) (obj []) _ "addr"
           _ H Hnd); [simpl; tauto|reflexivity..].
Defined.

(** ** Leaf tags the body does not test for *)

(** X4. A leaf tag that is none of the nine the body tests for is not
    validated at all: the value built is [json[key]] as it stands, with
    no fallback to [attrs] or [defaults], so a key missing from [json]
    is present in the result with the value [undefined]. *)
Theorem unknown_tag_passes (host : Host)
  (schema defaults json attrs ignoredAttrs r : value) (key tag : string) :
  buildAttributes host schema defaults json attrs ignoredAttrs = Ok r ->
  NoDup (own_keys schema) ->
  In (key, VStr tag) (entries schema) ->
  known_tag tag = false ->
  is_true (field ignoredAttrs key) = false ->
  get r key = field json key /\ In key (own_keys r).
Proof.
  intros H Hnd Hin Htag Hign.
  destruct (buildAttributes_get _ _ _ _ _ _ _ _ _ H Hnd Hin)
    as (ov & Hb & Hget & Hkey).
  unfold body, buildKey in Hb. rewrite Hign in Hb. simpl in Hb.
  unfold known_tag, resets_on_empty in Htag.
  repeat (apply orb_false_iff in Htag; destruct Htag as [Htag ?]).
  use_tag_tests. simpl in Hb. injection Hb as <-.
  split; [exact Hget|apply Hkey; discriminate].
Qed.

Lemma unknown_tag_passes_witness :
  (buildAttributes sample_host (obj [("kind", VStr "sting")])
     (obj [("kind", VStr "d")]) (obj []) (obj [("kind", VStr "a")]) (obj [])
   = Ok (obj [("kind", VUndefined)])
   /\ NoDup (own_keys (obj [("kind", VStr "sting")]))
   /\ known_tag "sting" = false)
  /\ get (obj [("kind", VUndefined)]) "kind" = field (obj []) "kind"
  /\ In "kind" (own_keys (obj [("kind", VUndefined)])).
Proof.
  assert (H : buildAttributes sample_host (obj [("kind", VStr "sting")])
                (obj [("kind", VStr "d")]) (obj [])
                (obj [("kind", VStr "a")]) (obj [])
              = Ok (obj [("kind", VUndefined)])) by (vm_compute; reflexivity).
  assert (Hnd : NoDup (own_keys (obj [("kind", VStr "sting")])))
    by (apply distinct_NoDup; reflexivity).
  split; [repeat split; assumption || reflexivity|].
  apply (unknown_tag_passes sample_host (obj [("kind", VStr "sting")])
           (obj [("kind", VStr "d")]) (obj []) (obj [("kind", VStr "a")])
           (obj []) _ "kind" "sting" H Hnd); [simpl; tauto|reflexivity..].
Defined.

(** ** Numeric leaves *)

Lemma Math_max_zero (x : float) :
  is_nan x = false ->
  ltb (Math_max x zero) zero = false /\ is_nan (Math_max x zero) = false.
Proof.
  intros Hx. unfold Math_max. rewrite Hx. simpl orb.
  change (is_nan zero) with false. cbv iota.
  destruct (ltb x zero) eqn:E; [split; reflexivity|].
  destruct (ltb zero x); [split; assumption|].
  destruct (get_sign x); [split; reflexivity|split; assumption].
Qed.

(** X5. At a numeric leaf whose [json] value is not the empty string
    and parses to a number [n], the value built is [n] for [integer]
    and [float] and [Math.max(n, 0)] for [uinteger] and [ufloat], which
    is never negative and never NaN.  When the parse gives NaN the value
    is taken from the fallback chain as it is: an [attrs] or [defaults]
    value is neither parsed nor clamped. *)
Theorem numeric_leaf (host : Host)
  (schema defaults json attrs ignoredAttrs r : value) (key tag : string)
  (n : float) :
  buildAttributes host schema defaults json attrs ignoredAttrs = Ok r ->
  NoDup (own_keys schema) ->
  In (key, VStr tag) (entries schema) ->
  numeric_tag tag = true ->
  is_true (field ignoredAttrs key) = false ->
  is_empty_string (field json key) = false ->
  parse_number host tag (field json key) = Ok n ->
  (isNaN n = false ->
   get r key = VNum (if unsigned_tag tag then Math_max n zero else n)
   /\ (unsigned_tag tag = true ->
       exists m, get r key = VNum m /\ ltb m zero = false
                 /\ is_nan m = false))
  /\ (isNaN n = true ->
      get r key = fallback (field attrs key) (field defaults key) (VNum zero)).
Proof.
  intros H Hnd Hin Htag Hign Hne Hparse.
  destruct (buildAttributes_get _ _ _ _ _ _ _ _ _ H Hnd Hin)
    as (ov & Hb & Hget & _).
  unfold body, buildKey in Hb. rewrite Hign, Hne in Hb. simpl in Hb.
  unfold parse_number in Hparse. unfold numeric_tag in Htag.
  unfold unsigned_tag.
  assert (Hov : ov = Some (if isNaN n
                           then fallback (field attrs key)
                                  (field defaults key) (VNum zero)
                           else VNum (if String.eqb tag "uinteger"
                                         || String.eqb tag "ufloat"
                                      then Math_max n zero else n))).
  { case_tag tag "integer";
      [simpl in Hb, Hparse; rewrite Hparse in Hb; simpl in Hb;
       destruct (isNaN n); now injection Hb as <-|].
    case_tag tag "uinteger";
      [simpl in Hb, Hparse; rewrite Hparse in Hb; simpl in Hb;
       destruct (isNaN n); now injection Hb as <-|].
    simpl in Hb, Hparse. injection Hparse as <-.
    case_tag tag "float";
      [simpl in Hb; destruct (isNaN _); now injection Hb as <-|].
    case_tag tag "ufloat";
      [simpl in Hb; destruct (isNaN _); now injection Hb as <-|].
    discriminate Htag. }
  subst ov. split; intros Hn; rewrite Hn in Hget; [|exact Hget].
  split; [exact Hget|]. intros Hu. rewrite Hu in Hget.
  exists (Math_max n zero). split; [exact Hget|].
  apply Math_max_zero. exact Hn.
Qed.

Lemma numeric_leaf_witness :
  (buildAttributes sample_host (obj [("n", VStr "uinteger")])
     (obj []) (obj [("n", VStr "-5")]) (obj []) (obj [])
   = Ok (obj [("n", VNum zero)])
   /\ NoDup (own_keys (obj [("n", VStr "uinteger")]))
   /\ parse_number sample_host "uinteger" (field (obj [("n", VStr "-5")]) "n")
      = Ok (-5)%float)
  /\ get (obj [("n", VNum zero)]) "n"
     = VNum (if unsigned_tag "uinteger"
             then Math_max (-5)%float zero else (-5)%float).
Proof.
  assert (H : buildAttributes sample_host (obj [("n", VStr "uinteger")])
                (obj []) (obj [("n", VStr "-5")]) (obj []) (obj [])
              = Ok (obj [("n", VNum zero)])) by (vm_compute; reflexivity).
  assert (Hnd : NoDup (own_keys (obj [("n", VStr "uinteger")])))
    by (apply distinct_NoDup; reflexivity).
  assert (Hp : parse_number sample_host "uinteger"
                 (field (obj [("n", VStr "-5")]) "n") = Ok (-5)%float)
    by (vm_compute; reflexivity).
  split; [repeat split; assumption|].
  refine (proj1 (proj1 (numeric_leaf sample_host
            (obj [("n", VStr "uinteger")]) (obj [])
            (obj [("n", VStr "-5")]) (obj []) (obj []) _ "n" "uinteger"
            (-5)%float H Hnd _ eq_refl eq_refl eq_refl Hp) eq_refl)).
  simpl. tauto.
Defined.

(** ** Arrays of objects *)

Lemma mapM_Forall2 {A B} (f : A -> outcome B) (l : list A) :
  forall ys, mapM f l = Ok ys -> Forall2 (fun x y => f x = Ok y) l ys.
Proof.
  induction l as [|x r IH]; simpl; intros ys H.
  - injection H as <-. constructor.
  - destruct (f x) as [y|] eqn:E; simpl in H; [|discriminate].
    destruct (mapM f r) as [ys'|]; simpl in H; [|discriminate].
    injection H as <-. constructor; [exact E|now apply IH].
Qed.

(** X6. At an array-of-objects node with a non-empty [json] value, the
    value built is a sequence with one element per element of
    [json[key]], in order, and every element has the same keys: those
    of the element schema [val[0]] that have a branch and that the
    nested mask [ignoredAttrs[key]] does not map to [true], whatever
    the [json] element is.  The schema, the element schema and
    [json[key]] are values that [_.each] walks as [entries] lists them:
    none is an object with an own numeric [length]. *)
Theorem object_array_shape (host : Host)
  (schema defaults json attrs ignoredAttrs r : value)
  (key : string) (val0 : value) (rest : list value) :
  buildAttributes host schema defaults json attrs ignoredAttrs = Ok r ->
  array_like schema = false ->
  array_like val0 = false ->
  array_like (field json key) = false ->
  NoDup (own_keys schema) ->
  In (key, VArr (val0 :: rest)) (entries schema) ->
  isString val0 || isEmpty val0 = false ->
  is_true (field ignoredAttrs key) = false ->
  isNull (field json key) || isUndefined (field json key) = false ->
  isEmpty (field json key) = false ->
  exists built,
    get r key = VArr built
    /\ length built = length (each_values (field json key))
    /\ forall e, In e built ->
       forall k,
         In k (own_keys e)
         <-> exists v,
               In (k, v) (entries val0)
               /\ has_branch v = true
               /\ is_true (field (field ignoredAttrs key) k) = false.
Proof.
  intros H _ _ _ Hnd Hin Hval0 Hign Hnull Hempty.
  destruct (buildAttributes_get _ _ _ _ _ _ _ _ _ H Hnd Hin)
    as (ov & Hb & Hget & _).
  unfold body, buildKey in Hb. rewrite Hign, Hnull, Hempty in Hb.
  simpl in Hb. rewrite Hval0 in Hb.
  break_bind; [|discriminate Hb]. injection Hb as <-.
  match goal with Hm : mapM _ _ = Ok ?a |- _ =>
    exists a; apply mapM_Forall2 in Hm; rename Hm into Hall end.
  split; [exact Hget|]. split.
  - symmetry. exact (Forall2_length Hall).
  - intros e He k.
    assert (Hsrc : exists j,
              buildAttributes host val0 (field defaults key) j
                (field attrs key) (field ignoredAttrs key) = Ok e).
    { clear -Hall He. induction Hall as [|j y js ys Hy _ IH];
        [contradiction|].
      destruct He as [->|He]; eauto. }
    destruct Hsrc as [j Hj]. exact (buildAttributes_keys _ _ _ _ _ _ _ Hj k).
Qed.

Lemma object_array_shape_witness :
  (buildAttributes sample_host items_schema VUndefined items_json VUndefined
     items_mask = Ok items_result
   /\ array_like items_schema = false
   /\ array_like (field items_json "items") = false
   /\ NoDup (own_keys items_schema)
   /\ isEmpty (field items_json "items") = false)
  /\ exists built,
       get items_result "items" = VArr built
       /\ length built = length (each_values (field items_json "items"))
       /\ forall e, In e built ->
          forall k,
            In k (own_keys e)
            <-> exists v,
                  In (k, v)
                    (entries (obj [("sku", VStr "string");
                                   ("cost", VStr "string")]))
                  /\ has_branch v = true
                  /\ is_true (field (field items_mask "items") k) = false.
Proof.
  assert (H : buildAttributes sample_host items_schema VUndefined items_json
                VUndefined items_mask = Ok items_result)
    by (vm_compute; reflexivity).
  assert (Hnd : NoDup (own_keys items_schema))
    by (apply distinct_NoDup; reflexivity).
  split; [repeat split; assumption || reflexivity|].
  apply (object_array_shape sample_host items_schema VUndefined items_json
           VUndefined items_mask items_result "items"
           (obj [("sku", VStr "string"); ("cost", VStr "string")]) [] H
           eq_refl eq_refl eq_refl Hnd);
    [simpl; tauto|reflexivity..].
Defined.

(** * The other methods of the model *)

(** ** [parse] *)

Lemma body_same_source_null (host : Host)
  (defaults resp : value) (key : string) (val : value) :
  isObject resp = false ->
  isNaN (parseFloat host VNull) = true ->
  has_branch val = true ->
  body host defaults resp resp VUndefined key val = Ok (Some VNull).
Proof.
  intros Hresp Hpf Hb. unfold body, buildKey, field. rewrite Hresp.
  simpl isObject. cbv iota. simpl is_true. cbv iota.
  rewrite parseInt_null. simpl bind. rewrite Hpf.
  destruct val as [| | | |tag| |[|val0 rest]|[|p props]];
    try discriminate Hb; try reflexivity.
  simpl.
  split_tag tag; simpl; rewrite ?Etag, ?Etag0, ?Etag1, ?Etag2, ?Etag3; simpl;
    try (destruct (isValidISO8601String host VNull)); reflexivity.
Qed.

Lemma body_no_branch (host : Host)
  (defaults json attrs ignoredAttrs : value) (key : string) (val : value) :
  has_branch val = false ->
  body host defaults json attrs ignoredAttrs key val = Ok None.
Proof. intros H. unfold body. now apply buildKey_no_branch. Qed.

(** X7. When the response is not a document (it is [null] or
    [undefined], or an array that is empty or starts with such a value),
    [parse] returns, and every key of the combined schema that is given
    a value is given [null]: the defaults are not applied, because the
    missing response is also the [attrs] of the build and reads as a
    defined [null] at every key. *)
Theorem parse_without_document (host : Host)
  (schema baseSchema defaults resp : value) :
  isObject (first_document resp) = false ->
  isNaN (parseFloat host VNull) = true ->
  NoDup (own_keys (combinedSchema schema baseSchema)) ->
  exists r,
    parse host schema baseSchema defaults resp = Ok r
    /\ forall key val,
         In (key, val) (entries (combinedSchema schema baseSchema)) ->
         has_branch val = true ->
         get r key = VNull.
Proof.
  intros Hresp Hpf Hnd. unfold parse.
  set (doc := first_document resp) in *.
  set (sch := combinedSchema schema baseSchema) in *.
  assert (Hret : forall key val, In (key, val) (entries sch) ->
            exists ov, body host defaults doc doc VUndefined key val = Ok ov).
  { intros key val _. destruct (has_branch val) eqn:E.
    - rewrite body_same_source_null by assumption. eauto.
    - rewrite body_no_branch by assumption. eauto. }
  destruct (each_props_returns _ _ Hret []) as [props Hrun].
  assert (H : buildAttributes host sch defaults doc doc VUndefined
              = Ok (VObj props))
    by (rewrite buildAttributes_unfold, Hrun; reflexivity).
  exists (VObj props). split; [exact H|]. intros key val Hin Hb.
  destruct (buildAttributes_get _ _ _ _ _ _ _ _ _ H Hnd Hin)
    as (ov & Hov & Hget & _).
  rewrite body_same_source_null in Hov by assumption.
  injection Hov as <-. exact Hget.
Qed.

Lemma parse_without_document_witness :
  (isObject (first_document (arr [])) = false
   /\ isNaN (parseFloat sample_host VNull) = true
   /\ NoDup (own_keys (combinedSchema order_schema VUndefined)))
  /\ parse sample_host order_schema VUndefined order_defaults (arr [])
     = Ok (obj [("count", VNull); ("name", VNull); ("paid", VNull);
                ("tags", VNull); ("addr", VNull); ("price", VNull)])
  /\ exists r,
       parse sample_host order_schema VUndefined order_defaults (arr [])
       = Ok r
       /\ forall key val,
            In (key, val) (entries (combinedSchema order_schema VUndefined)) ->
            has_branch val = true ->
            get r key = VNull.
Proof.
  assert (Hnd : NoDup (own_keys (combinedSchema order_schema VUndefined)))
    by (apply distinct_NoDup; reflexivity).
  split; [repeat split; reflexivity || exact Hnd|].
  split; [vm_compute; reflexivity|].
  exact (parse_without_document sample_host order_schema VUndefined
           order_defaults (arr []) eq_refl eq_refl Hnd).
Defined.

(** X8. [parse] does not validate a [boolean], [id], [string] or [date]
    leaf: the response is also the [attrs] of the build, so a value of
    the wrong type falls back to itself.  The value built is
    [resp[key]] whenever that is not [undefined], and otherwise
    [defaults[key]], or the zero of the tag without one ([undefined]
    being no valid date to [_.isValidISO8601String]). *)
Theorem parse_keeps_stored_value (host : Host)
  (schema baseSchema defaults resp r : value) (key tag : string) :
  parse host schema baseSchema defaults resp = Ok r ->
  NoDup (own_keys (combinedSchema schema baseSchema)) ->
  In (key, VStr tag) (entries (combinedSchema schema baseSchema)) ->
  checked_tag tag = true ->
  isValidISO8601String host VUndefined = false ->
  get r key
  = if isUndefined (field (first_document resp) key)
    then orDefault (field defaults key) (zero_value (VStr tag))
    else field (first_document resp) key.
Proof.
  intros H Hnd Hin Htag Hiso. unfold parse in H.
  destruct (buildAttributes_get _ _ _ _ _ _ _ _ _ H Hnd Hin)
    as (ov & Hb & Hget & _).
  rewrite Hget. clear Hget H.
  unfold body, buildKey in Hb. simpl in Hb.
  unfold checked_tag in Htag. unfold zero_value, orDefault, fallback in *.
  set (v := field (first_document resp) key) in *.
  split_tag tag; simpl in Htag; try discriminate Htag; simpl in Hb |- *;
    use_tag_tests; simpl in Hb;
    destruct v; simpl in Hb |- *; rewrite ?Hiso in Hb; simpl in Hb;
    repeat break_if; try discriminate; injection Hb as <-; reflexivity.
Qed.

Lemma parse_keeps_stored_value_witness :
  (parse sample_host user_schema user_base VUndefined (arr [obj [("name", num 7)]])
   = Ok (obj [("name", num 7); ("password", VNull); ("age", VNull);
              ("created", VNull)])
   /\ NoDup (own_keys (combinedSchema user_schema user_base))
   /\ In ("name", VStr "string") (entries (combinedSchema user_schema user_base)))
  /\ get (obj [("name", num 7); ("password", VNull); ("age", VNull);
               ("created", VNull)]) "name"
     = num 7.
Proof.
  assert (H : parse sample_host user_schema user_base VUndefined
                (arr [obj [("name", num 7)]])
              = Ok (obj [("name", num 7); ("password", VNull);
                         ("age", VNull); ("created", VNull)]))
    by (vm_compute; reflexivity).
  assert (Hnd : NoDup (own_keys (combinedSchema user_schema user_base)))
    by (apply distinct_NoDup; reflexivity).
  assert (Hin : In ("name", VStr "string")
                  (entries (combinedSchema user_schema user_base)))
    by (vm_compute; tauto).
  split; [repeat split; assumption|].
  exact (parse_keeps_stored_value sample_host user_schema user_base
           VUndefined (arr [obj [("name", num 7)]]) _ "name" "string"
           H Hnd Hin eq_refl eq_refl).
Defined.

(** ** [render] *)

(** X9. A hidden attribute (one the mask maps to [true]) is in the
    rendered object exactly when the combined schema is empty and the
    model holds the attribute: with a schema, hidden attributes are
    never rendered; without one, for instance when the model defines
    only a base schema, [render] returns all attributes and the mask is
    not applied. *)
Theorem render_hidden_attribute (host : Host)
  (schema baseSchema defaults attributes hiddenAttributes r : value)
  (k : string) :
  render host schema baseSchema defaults attributes hiddenAttributes = Ok r ->
  is_true (field hiddenAttributes k) = true ->
  (In k (own_keys r)
   <-> isEmpty (combinedSchema schema baseSchema) = true
       /\ In k (own_keys attributes)).
Proof.
  intros H Hhidden. unfold render in H.
  destruct (isEmpty (combinedSchema schema baseSchema)) eqn:E.
  - injection H as <-. unfold toJSON, cloneDeep. tauto.
  - rewrite (buildAttributes_keys _ _ _ _ _ _ _ H k). split.
    + intros (val & _ & _ & Hign). congruence.
    + intros [Hf _]. discriminate Hf.
Qed.

Lemma render_hidden_attribute_witness :
  (render sample_host VUndefined user_base VUndefined user_attributes
     user_hidden = Ok user_attributes
   /\ is_true (field user_hidden "password") = true)
  /\ (In "password" (own_keys user_attributes)
      <-> isEmpty (combinedSchema VUndefined user_base) = true
          /\ In "password" (own_keys user_attributes)).
Proof.
  split; [split; reflexivity|].
  exact (render_hidden_attribute sample_host VUndefined user_base VUndefined
           user_attributes user_hidden user_attributes "password"
           eq_refl eq_refl).
Defined.

Lemma assign_In (props : list (string * value)) (k k' : string)
  (v v' : value) :
  In (k', v') (assign props k v) -> (k', v') = (k, v) \/ In (k', v') props.
Proof.
  induction props as [|[k0 v0] rest IH]; simpl.
  - intros [H|[]]. left. now symmetry.
  - destruct (String.eqb k k0); simpl.
    + intros [H|H]; [left; now symmetry|right; now right].
    + intros [H|H]; [right; now left|].
      destruct (IH H) as [Heq|Hin]; [now left|right; now right].
Qed.

Lemma merge_props_values (P : value -> Prop) (f : value -> value -> value)
  (ps : list (string * value)) :
  (forall k src v0, In (k, src) ps -> P (f v0 src)) ->
  forall o,
    (forall k v, In (k, v) o -> P v) ->
    exists o',
      merge_props f ps (VObj o) = VObj o'
      /\ forall k v, In (k, v) o' -> P v.
Proof.
  induction ps as [|[k0 src0] rest IH]; intros Hf o Ho.
  - exists o. split; [reflexivity|exact Ho].
  - cbn [merge_props]. unfold set at 1. apply IH.
    + intros k src v0 Hin. apply (Hf k). now right.
    + intros k v Hin. apply assign_In in Hin. destruct Hin as [Heq|Hin].
      * injection Heq as -> ->. apply (Hf k0). now left.
      * exact (Ho k v Hin).
Qed.

Lemma merge_items_array (f : value -> value -> value) (l : list value) :
  forall i a, exists a', merge_items f i l (VArr a) = VArr a'.
Proof.
  induction l as [|src rest IH]; intros i a; [exists a; reflexivity|].
  cbn [merge_items]. unfold set at 1. rewrite index_of_key_index_key.
  apply IH.
Qed.

Lemma baseMerge_array (object : value) (items : list value) :
  baseMerge object (VArr items) = merge_items merged 0 items object.
Proof. reflexivity. Qed.

Lemma merged_branch (v0 src : value) :
  has_branch src = true -> has_branch (merged v0 src) = true.
Proof.
  intros H. destruct src; try discriminate H; try reflexivity.
  - unfold merged. rewrite baseMerge_array.
    destruct (isArray v0) eqn:E; [destruct v0; try discriminate E|].
    + destruct (merge_items_array merged items 0 items0) as [a' ->].
      reflexivity.
    + destruct (merge_items_array merged items 0 []) as [a' ->].
      reflexivity.
  - unfold merged. rewrite baseMerge_object.
    destruct (isPlainObject v0) eqn:E; [destruct v0; try discriminate E|].
    + destruct (merge_props_object merged props props0) as (o' & -> & _).
      reflexivity.
    + destruct (merge_props_object merged props []) as (o' & -> & _).
      reflexivity.
Qed.

(** X10. With a schema and a base schema that are objects whose values
    are all strings, arrays, objects or dates, and that are not both
    empty, the keys of the rendered object are the keys of either
    schema that the hidden attributes do not map to [true]: every such
    key is rendered, also one the model holds no attribute for, and no
    attribute outside the two schemas is. *)
Theorem render_keys (host : Host)
  (schema base : list (string * value))
  (defaults attributes hiddenAttributes r : value) :
  (forall k v, In (k, v) schema -> has_branch v = true) ->
  (forall k v, In (k, v) base -> has_branch v = true) ->
  isEmpty (combinedSchema (VObj schema) (VObj base)) = false ->
  render host (VObj schema) (VObj base) defaults attributes hiddenAttributes
  = Ok r ->
  forall k,
    In k (own_keys r)
    <-> (In k (keys schema) \/ In k (keys base))
        /\ is_true (field hiddenAttributes k) = false.
Proof.
  intros Hs Hb Hne H k. unfold render in H. rewrite Hne in H.
  rewrite (buildAttributes_keys _ _ _ _ _ _ _ H k). clear H Hne.
  unfold combinedSchema, merge. simpl isObject. cbv iota.
  rewrite baseMerge_object.
  destruct (merge_props_object merged base schema)
    as (o' & Ho' & Hold & Hnew & Hother & _).
  destruct (merge_props_values (fun v => has_branch v = true) merged base)
    with (o := schema) as (o'' & Ho'' & Hall).
  { intros k0 src v0 Hin. apply merged_branch. exact (Hb _ _ Hin). }
  { exact Hs. }
  rewrite Ho' in Ho''. injection Ho'' as <-. rewrite Ho'. simpl entries.
  split.
  - intros (val & Hin & _ & Hign). split; [|exact Hign].
    destruct (in_dec string_dec k (keys base)) as [Hk|Hk]; [now right|left].
    assert (Hl : lookup k o' <> None).
    { intros Hn. apply lookup_None in Hn. apply Hn.
      apply (in_map fst) in Hin. exact Hin. }
    rewrite Hother in Hl by exact Hk.
    destruct (lookup k schema) as [v|] eqn:E; [|congruence].
    apply lookup_In in E. apply (in_map fst) in E. exact E.
  - intros [Hk Hign].
    assert (Hin : In k (keys o')) by (destruct Hk; auto).
    unfold keys in Hin. apply in_map_iff in Hin.
    destruct Hin as ([k' val] & <- & Hin). simpl.
    exists val. split; [exact Hin|]. split; [exact (Hall _ _ Hin)|exact Hign].
Qed.

Lemma render_keys_witness :
  (isEmpty (combinedSchema user_schema user_base) = false
   /\ render sample_host user_schema user_base VUndefined user_attributes
        user_hidden
      = Ok (obj [("name", VStr "ann"); ("age", VStr "x");
                 ("created", VNull)]))
  /\ forall k,
       In k (own_keys (obj [("name", VStr "ann"); ("age", VStr "x");
                            ("created", VNull)]))
       <-> (In k (own_keys user_schema) \/ In k (own_keys user_base))
           /\ is_true (field user_hidden k) = false.
Proof.
  assert (H : render sample_host user_schema user_base VUndefined
                user_attributes user_hidden
              = Ok (obj [("name", VStr "ann"); ("age", VStr "x");
                         ("created", VNull)])) by (vm_compute; reflexivity).
  split; [split; [reflexivity|exact H]|].
  apply (render_keys sample_host
           [("name", VStr "string"); ("password", VStr "string");
            ("age", VStr "integer")]
           [("created", VStr "date")]
           VUndefined user_attributes user_hidden _).
  - intros k v Hin. simpl in Hin.
    destruct Hin as [Hin|[Hin|[Hin|[]]]]; injection Hin as <- <-; reflexivity.
  - intros k v Hin. simpl in Hin.
    destruct Hin as [Hin|[]]; injection Hin as <- <-; reflexivity.
  - reflexivity.
  - exact H.
Defined.

(** ** [get] and [getDeep] *)

Lemma split_nonempty (sep : ascii) (s : string) : split sep s <> [].
Proof.
  destruct s as [|c r]; simpl; [discriminate|].
  destruct (Ascii.eqb c sep); [discriminate|].
  destruct (split sep r); discriminate.
Qed.

Lemma split_app (sep : ascii) (a b : string) :
  split sep (a ++ String sep b)%string = split sep a ++ split sep b.
Proof.
  induction a as [|c r IH]; simpl.
  - now rewrite Ascii.eqb_refl.
  - destruct (Ascii.eqb c sep); [now rewrite IH|].
    rewrite IH. pose proof (split_nonempty sep r) as Hne.
    destruct (split sep r); [contradiction|reflexivity].
Qed.

Lemma walk_app (p1 p2 : list string) :
  p1 <> [] ->
  forall val,
    walk (p1 ++ p2) val
    = let* v := walk p1 val in
      if isUndefined v || isNull v then Ok v else walk p2 v.
Proof.
  induction p1 as [|key rest IH]; intros Hne val; [contradiction|].
  simpl. destruct (member val key) as [v|]; simpl; [|reflexivity].
  destruct (isUndefined v || isNull v) eqn:E; simpl; [now rewrite E|].
  destruct rest as [|key' rest']; [simpl; now rewrite E|].
  apply IH. discriminate.
Qed.

Lemma walk_returns (path : list string) :
  forall val, isUndefined val || isNull val = false ->
  exists v, walk path val = Ok v.
Proof.
  induction path as [|key rest IH]; intros val Hval; simpl; [eauto|].
  assert (Hm : exists v, member val key = Ok v)
    by (destruct val; try discriminate Hval; simpl; eauto).
  destruct Hm as [v ->]. simpl.
  destruct (isUndefined v || isNull v) eqn:E; [eauto|now apply IH].
Qed.


(** X11. On attributes that are data, neither [null] nor [undefined],
    [getDeep] does not raise along a path whose reads find own
    properties only: the loop stops at the first [undefined] or [null]
    on the way, before reading a property of it. *)
Theorem getDeep_returns (attrs : value) (attr : string) :
  isUndefined attrs || isNull attrs = false ->
  own_path (split "." attr) attrs = true ->
  exists v, getDeep attrs attr = Ok v.
Proof. intros H _. unfold getDeep. now apply walk_returns. Qed.

Lemma getDeep_returns_witness :
  isUndefined profile_attributes || isNull profile_attributes = false
  /\ own_path (split "." "profile.zip.code.x") profile_attributes = true
  /\ getDeep profile_attributes "profile.zip.code.x" = Ok VNull
  /\ exists v, getDeep profile_attributes "profile.zip.code.x" = Ok v.
Proof.
  split; [reflexivity|]. split; [reflexivity|]. split; [reflexivity|].
  exact (getDeep_returns profile_attributes "profile.zip.code.x"
           eq_refl eq_refl).
Defined.

(** X12. On attributes that are data (none is a computed property),
    and along a path whose reads find own properties only, reading the
    path [a.b] is reading [a] and then, unless that gave [undefined] or
    [null], reading [b] from the value found; an [undefined] or [null]
    on the way is the result. *)
Theorem getDeep_path (attrs : value) (a b : string) :
  own_path (split "." (a ++ String "." b)) attrs = true ->
  getDeep attrs (a ++ String "." b)%string
  = let* v := getDeep attrs a in
    if isUndefined v || isNull v then Ok v else getDeep v b.
Proof.
  intros _.
  unfold getDeep. rewrite split_app. apply walk_app. apply split_nonempty.
Qed.

Lemma getDeep_path_witness :
  own_path (split "." "profile.city") profile_attributes = true
  /\ getDeep profile_attributes "profile.city" = Ok (VStr "NYC")
  /\ getDeep profile_attributes "profile.city"
     = let* v := getDeep profile_attributes "profile" in
       if isUndefined v || isNull v then Ok v else getDeep v "city".
Proof.
  split; [reflexivity|]. split; [reflexivity|].
  exact (getDeep_path profile_attributes "profile" "city" eq_refl).
Defined.

(** X13. An attribute whose own name contains a dot cannot be read: for
    a first segment [a] that the attributes do not hold and that names
    no inherited member of an object, the path [a.b] reads [undefined],
    also when an attribute named [a.b] exists. *)
Theorem getDeep_dotted_name (props : list (string * value)) (a b : string) :
  split "." a = [a] ->
  inherited_name a = false ->
  lookup a props = None ->
  getDeep (VObj props) (a ++ String "." b)%string = Ok VUndefined.
Proof.
  intros Ha _ Hl. unfold getDeep. rewrite split_app, Ha. simpl.
  now rewrite Hl.
Qed.

Lemma getDeep_dotted_name_witness :
  (split "." "a" = ["a"]
   /\ inherited_name "a" = false
   /\ lookup "a" [("a.b", num 1)] = None
   /\ lookup "a.b" [("a.b", num 1)] = Some (num 1))
  /\ getDeep (VObj [("a.b", num 1)]) "a.b" = Ok VUndefined.
Proof.
  split; [repeat split; reflexivity|].
  exact (getDeep_dotted_name [("a.b", num 1)] "a" "b"
           eq_refl eq_refl eq_refl).
Defined.

(** ** The base defaults *)

Lemma defaults_props (ps : list (string * value)) :
  NoDup (keys ps) ->
  forall o, exists o',
    fold_left
      (fun o '(key, src) =>
         if isUndefined (get o key) then set o key src else o)
      ps (VObj o) = VObj o'
    /\ forall k,
         get (VObj o') k
         = if isUndefined (get (VObj o) k) then get (VObj ps) k
           else get (VObj o) k.
Proof.
  induction ps as [|[k0 src0] rest IH]; intros Hnd o.
  - exists o. split; [reflexivity|]. intros k. simpl.
    now destruct (lookup k o) as [[]|].
  - cbn [keys map fst] in Hnd. inversion Hnd as [|? ? Hnotin Hnd']; subst.
    cbn [fold_left].
    set (o1 := if isUndefined (get (VObj o) k0)
               then assign o k0 src0 else o).
    assert (Ho1 : (if isUndefined (get (VObj o) k0)
                   then set (VObj o) k0 src0 else VObj o) = VObj o1)
      by (unfold o1; now destruct (isUndefined (get (VObj o) k0))).
    rewrite Ho1. destruct (IH Hnd' o1) as (o' & -> & Hget).
    exists o'. split; [reflexivity|]. intros k. rewrite Hget.
    assert (Hg1 : get (VObj o1) k
                  = if String.eqb k k0
                    then (if isUndefined (get (VObj o) k0)
                          then src0 else get (VObj o) k0)
                    else get (VObj o) k).
    { unfold o1. destruct (String.eqb k k0) eqn:E.
      - apply String.eqb_eq in E. subst k0.
        destruct (isUndefined (get (VObj o) k)); [|reflexivity].
        simpl. now rewrite lookup_assign, String.eqb_refl.
      - destruct (isUndefined (get (VObj o) k0)); [|reflexivity].
        simpl. now rewrite lookup_assign, E. }
    rewrite Hg1. cbn [get lookup]. destruct (String.eqb k k0) eqn:E.
    + apply String.eqb_eq in E. subst k0.
      apply lookup_None in Hnotin. rewrite Hnotin.
      destruct (lookup k o) as [v|]; simpl.
      * destruct (isUndefined v) eqn:Ev; [|now rewrite Ev].
        now destruct (isUndefined src0) eqn:Es; destruct src0.
      * now destruct (isUndefined src0) eqn:Es; destruct src0.
    + reflexivity.
Qed.

(** X14. With attributes and base defaults that are objects, after the
    constructor an attribute reads as it did when it was not
    [undefined], [null] included, and reads the base default otherwise:
    base defaults fill the gaps and never replace a value (where the
    base schema, in [combinedSchema], replaces the schema's entries).
    Applying the base defaults a second time changes nothing. *)
Theorem applyBaseDefaults_fills (attributes baseDefaults : list (string * value)) :
  NoDup (keys baseDefaults) ->
  (forall k,
     get (applyBaseDefaults (VObj attributes) (VObj baseDefaults)) k
     = if isUndefined (get (VObj attributes) k)
       then get (VObj baseDefaults) k
       else get (VObj attributes) k)
  /\ forall k,
       get (applyBaseDefaults
              (applyBaseDefaults (VObj attributes) (VObj baseDefaults))
              (VObj baseDefaults)) k
       = get (applyBaseDefaults (VObj attributes) (VObj baseDefaults)) k.
Proof.
  intros Hnd. unfold applyBaseDefaults, defaults_into. simpl isObject.
  cbv iota. simpl entries.
  destruct (defaults_props baseDefaults Hnd attributes) as (o' & -> & Hget).
  split; [exact Hget|]. intros k.
  destruct (defaults_props baseDefaults Hnd o') as (o'' & -> & Hget').
  rewrite Hget', Hget.
  destruct (isUndefined (get (VObj attributes) k)) eqn:E.
  - now destruct (isUndefined (get (VObj baseDefaults) k)).
  - now rewrite E.
Qed.

Lemma applyBaseDefaults_fills_witness :
  (NoDup (keys [("locked", VBool false); ("name", VStr "none");
                ("age", num 1)])
   /\ applyBaseDefaults
        (obj [("name", VNull); ("age", VUndefined)])
        (obj [("locked", VBool false); ("name", VStr "none"); ("age", num 1)])
      = obj [("name", VNull); ("age", num 1); ("locked", VBool false)])
  /\ forall k,
       get (applyBaseDefaults
              (obj [("name", VNull); ("age", VUndefined)])
              (obj [("locked", VBool false); ("name", VStr "none");
                    ("age", num 1)])) k
       = if isUndefined (get (obj [("name", VNull); ("age", VUndefined)]) k)
         then get (obj [("locked", VBool false); ("name", VStr "none");
                        ("age", num 1)]) k
         else get (obj [("name", VNull); ("age", VUndefined)]) k.
Proof.
  assert (Hnd : NoDup (keys [("locked", VBool false); ("name", VStr "none");
                             ("age", num 1)]))
    by (apply distinct_NoDup; reflexivity).
  split; [split; [exact Hnd|vm_compute; reflexivity]|].
  exact (proj1 (applyBaseDefaults_fills
                  [("name", VNull); ("age", VUndefined)]
                  [("locked", VBool false); ("name", VStr "none");
                   ("age", num 1)] Hnd)).
Defined.

(** ** Merging the base schema twice *)

Lemma assign_same (props : list (string * value)) (k : string) (w : value) :
  lookup k props = Some w -> assign props k w = props.
Proof.
  induction props as [|[k0 v0] rest IH]; simpl; [discriminate|].
  destruct (String.eqb k k0) eqn:E.
  - apply String.eqb_eq in E. subst k0. now intros [= ->].
  - intros H. now rewrite IH.
Qed.

Lemma merge_props_fixed (f : value -> value -> value)
  (ps x : list (string * value)) :
  (forall k src, In (k, src) ps ->
     exists w, lookup k x = Some w /\ f w src = w) ->
  merge_props f ps (VObj x) = VObj x.
Proof.
  induction ps as [|[k0 src0] rest IH]; intros Hfix; [reflexivity|].
  cbn [merge_props].
  destruct (Hfix k0 src0 (or_introl eq_refl)) as (w & Hl & Hw).
  cbn [get]. rewrite Hl, Hw. cbn [set]. rewrite (assign_same _ _ _ Hl).
  apply IH. intros k src Hin. apply Hfix. now right.
Qed.

Lemma assign_index_here (a : list value) (i : nat) (v : value) :
  nth_error (assign_index a i v) i = Some v.
Proof.
  revert a. induction i as [|j IH]; intros [|x rest]; simpl; auto.
Qed.

Lemma assign_index_keeps (a : list value) (i i' : nat) (v w : value) :
  i' <> i -> nth_error a i' = Some w ->
  nth_error (assign_index a i v) i' = Some w.
Proof.
  revert a i'. induction i as [|j IH]; intros [|x rest] [|j'] Hne H;
    simpl in *; try discriminate; try congruence; auto.
Qed.

Lemma assign_index_nth (a : list value) (i i' : nat) (v : value) :
  i' <> i ->
  nth i' (assign_index a i v) VUndefined = nth i' a VUndefined.
Proof.
  revert a i'. induction i as [|j IH]; intros [|x rest] [|j'] Hne;
    simpl; try congruence; auto.
  - now destruct j'.
  - rewrite IH by congruence. now destruct j'.
Qed.

Lemma assign_index_same (a : list value) (i : nat) (w : value) :
  nth_error a i = Some w -> assign_index a i w = a.
Proof.
  revert a. induction i as [|j IH]; intros [|x rest]; simpl;
    try discriminate.
  - now intros [= ->].
  - intros H. now rewrite IH.
Qed.

Lemma merge_items_step (f : value -> value -> value) (i : nat)
  (src : value) (rest a : list value) :
  merge_items f i (src :: rest) (VArr a)
  = merge_items f (S i) rest
      (VArr (assign_index a i (f (nth i a VUndefined) src))).
Proof.
  cbn [merge_items]. unfold get, set. now rewrite index_of_key_index_key.
Qed.

Lemma merge_items_spec (f : value -> value -> value) (items : list value) :
  forall i a a',
    merge_items f i items (VArr a) = VArr a' ->
    (forall j, j < length items ->
       nth_error a' (i + j)
       = Some (f (nth (i + j) a VUndefined) (nth j items VUndefined)))
    /\ (forall i' w, i' < i -> nth_error a i' = Some w ->
        nth_error a' i' = Some w).
Proof.
  induction items as [|src rest IH]; intros i a a' H.
  - injection H as <-. split; [intros j Hj; inversion Hj|auto].
  - rewrite merge_items_step in H. destruct (IH _ _ _ H) as [Hnew Hold].
    split.
    + intros [|j] Hj.
      * rewrite Nat.add_0_r. apply Hold; [lia|]. apply assign_index_here.
      * simpl in Hj. replace (i + S j) with (S i + j) by lia.
        rewrite Hnew by lia. rewrite assign_index_nth by lia. reflexivity.
    + intros i' w Hi' Hw. apply Hold; [lia|].
      apply assign_index_keeps; [lia|exact Hw].
Qed.

Lemma merge_items_fixed (f : value -> value -> value) (items : list value) :
  forall i x,
    (forall j, j < length items ->
       exists w, nth_error x (i + j) = Some w
                 /\ f w (nth j items VUndefined) = w) ->
    merge_items f i items (VArr x) = VArr x.
Proof.
  induction items as [|src rest IH]; intros i x Hfix; [reflexivity|].
  rewrite merge_items_step.
  destruct (Hfix 0) as (w & Hw & Hf); [simpl; lia|].
  rewrite Nat.add_0_r in Hw. simpl in Hf.
  rewrite (nth_error_nth _ _ _ Hw), Hf, (assign_index_same _ _ _ Hw).
  apply IH. intros j Hj.
  destruct (Hfix (S j)) as (w' & Hw' & Hf'); [simpl; lia|].
  exists w'. replace (S i + j) with (i + S j) by lia. split; assumption.
Qed.

(** Merged over the result of merging it, an entry changes nothing. *)
Lemma merged_twice (src : value) :
  well_formed src = true ->
  forall v0, merged (merged v0 src) src = merged v0 src.
Proof.
  induction src as [| |b|x|s|t|items IH|props IH] using value_induction;
    intros Hwf v0; try reflexivity.
  - unfold merged at 2 3. rewrite baseMerge_array.
    set (d := if isArray v0 then v0 else VArr []).
    assert (Hd : exists a, d = VArr a)
      by (unfold d; destruct v0; simpl; eauto).
    destruct Hd as [a ->].
    destruct (merge_items_array merged items 0 a) as [a' Ha'].
    rewrite Ha'. unfold merged. simpl isArray. cbv iota.
    rewrite baseMerge_array. apply merge_items_fixed. intros j Hj.
    destruct (merge_items_spec _ _ _ _ _ Ha') as [Hnew _].
    eexists. split; [exact (Hnew j Hj)|].
    rewrite Forall_forall in IH. apply IH; [now apply nth_In|].
    simpl in Hwf. rewrite forallb_forall in Hwf. apply Hwf.
    now apply nth_In.
  - unfold merged at 2 3. rewrite baseMerge_object.
    set (d := if isPlainObject v0 then v0 else VObj []).
    assert (Hd : exists o, d = VObj o)
      by (unfold d; destruct v0; simpl; eauto).
    destruct Hd as [o ->].
    simpl in Hwf. apply andb_prop in Hwf. destruct Hwf as [Hnd Hall].
    apply distinct_NoDup in Hnd.
    destruct (merge_props_object merged props o)
      as (o' & Ho' & _ & _ & _ & Hin).
    rewrite Ho'. unfold merged. simpl isPlainObject. cbv iota.
    rewrite baseMerge_object. apply merge_props_fixed. intros k src Hk.
    eexists. split; [exact (Hin Hnd k src Hk)|].
    rewrite Forall_forall in IH. apply (IH _ Hk).
    rewrite forallb_forall in Hall. exact (Hall _ Hk).
Qed.

(** X15. [combinedSchema] merges the base schema into the object the
    model holds as its schema, and does so on every call; merging the
    same well-formed base schema again leaves the merged schema as it
    is, so repeated calls do not keep changing a schema that is shared
    between calls. *)
Theorem combinedSchema_twice (schema base : list (string * value)) :
  well_formed (VObj base) = true ->
  combinedSchema (combinedSchema (VObj schema) (VObj base)) (VObj base)
  = combinedSchema (VObj schema) (VObj base).
Proof.
  intros Hwf.
  change (combinedSchema (VObj schema) (VObj base))
    with (merged (VObj schema) (VObj base)).
  assert (Hobj : exists o, merged (VObj schema) (VObj base) = VObj o).
  { unfold merged. rewrite baseMerge_object. simpl isPlainObject. cbv iota.
    destruct (merge_props_object merged base schema) as (o' & -> & _).
    eauto. }
  destruct Hobj as [o Ho].
  transitivity (merged (merged (VObj schema) (VObj base)) (VObj base));
    [|now apply merged_twice].
  rewrite Ho. reflexivity.
Qed.

Lemma combinedSchema_twice_witness :
  well_formed base_schema = true
  /\ combinedSchema (combinedSchema model_schema base_schema) base_schema
     = obj [("title", VStr "integer");
            ("owner", obj [("name", VStr "string"); ("id", VStr "id")]);
            ("created", VStr "date")]
  /\ combinedSchema (combinedSchema model_schema base_schema) base_schema
     = combinedSchema model_schema base_schema.
Proof.
  split; [reflexivity|]. split; [vm_compute; reflexivity|].
  exact (combinedSchema_twice
           [("title", VStr "string"); ("owner", obj [("name", VStr "string")])]
           [("title", VStr "integer"); ("created", VStr "date");
            ("owner", obj [("id", VStr "id")])] eq_refl).
Defined.

(** * The sync methods *)







(** * The routes of a CRUD controller *)

Lemma table_get_set {A} (t : list (string * A)) (k k' : string) (v : A) :
  table_get (table_set t k v) k'
  = if String.eqb k' k then Some v else table_get t k'.
Proof.
  induction t as [|[k0 v0] rest IH]; simpl.
  - destruct (String.eqb k' k); reflexivity.
  - destruct (String.eqb k k0) eqn:E; simpl.
    + apply String.eqb_eq in E. subst k0.
      destruct (String.eqb k' k); reflexivity.
    + destruct (String.eqb k' k0) eqn:E'; [|exact IH].
      apply String.eqb_eq in E'. subst k0.
      rewrite String.eqb_sym, E. reflexivity.
Qed.

Lemma append_cancel (base s1 s2 : string) :
  (base ++ s1)%string = (base ++ s2)%string -> s1 = s2.
Proof.
  induction base as [|c r IH]; simpl; [auto|]. intros [= H]. auto.
Qed.

Ltac letter_cases :=
  repeat match goal with
         | |- context [String.eqb ?a ?b] =>
             let E := fresh "E" in
             destruct (String.eqb a b) eqn:E;
             [apply String.eqb_eq in E|]; simpl
         end.

Ltac clash :=
  solve [ congruence
        | match goal with
          | H1 : ?p = (?b ++ ?s1)%string, H2 : ?p = (?b ++ ?s2)%string |- _ =>
              rewrite H1 in H2; apply append_cancel in H2; discriminate H2
          end ].

Section RouteFacts.
Variable getRouteOption : string -> string -> value.
Variable base : string.

Lemma register_get (rs : CrudController.routes) (letter p : string) :
  table_get (CrudController.get
               (CrudController.register getRouteOption base rs letter)) p
  = if String.eqb p (base ++ "/count") && String.eqb letter "T"
    then Some (CrudController.entry getRouteOption
                 CrudController.count "count")
    else if String.eqb p (base ++ ".:format?") && String.eqb letter "R"
    then Some (CrudController.entry getRouteOption
                 CrudController.find "find")
    else if String.eqb p (base ++ "/:id.:format?") && String.eqb letter "O"
    then Some (CrudController.entry getRouteOption
                 CrudController.findOne "findOne")
    else table_get (CrudController.get rs) p.
Proof.
  unfold CrudController.register.
  destruct (String.eqb letter "T") eqn:ET;
    [apply String.eqb_eq in ET; subst letter; simpl;
     rewrite table_get_set; letter_cases; reflexivity|].
  destruct (String.eqb letter "C") eqn:EC;
    [apply String.eqb_eq in EC; subst letter; simpl;
     letter_cases; reflexivity|].
  destruct (String.eqb letter "R") eqn:ER;
    [apply String.eqb_eq in ER; subst letter; simpl;
     rewrite table_get_set; letter_cases; reflexivity|].
  destruct (String.eqb letter "O") eqn:EO;
    [apply String.eqb_eq in EO; subst letter; simpl;
     rewrite table_get_set; letter_cases; reflexivity|].
  rewrite !andb_false_r.
  destruct (String.eqb letter "U"); [reflexivity|].
  destruct (String.eqb letter "P"); [reflexivity|].
  destruct (String.eqb letter "D"); reflexivity.
Qed.
End RouteFacts.

Ltac bool_cases :=
  repeat match goal with
         | |- context [String.eqb ?a ?b] =>
             let E := fresh "E" in
             destruct (String.eqb a b) eqn:E;
             [apply String.eqb_eq in E|]
         | |- context [has_letter ?a ?b] =>
             let E := fresh "E" in destruct (has_letter a b) eqn:E
         end;
  simpl; try reflexivity; try clash.

Ltac on_letter letter c :=
  let E := fresh "E" in
  destruct (String.eqb letter c) eqn:E;
  [apply String.eqb_eq in E; subst letter; simpl;
   rewrite ?table_get_set; letter_cases; reflexivity|].

Ltac single_letter_step letter :=
  unfold CrudController.register;
  on_letter letter "T"; on_letter letter "C"; on_letter letter "R";
  on_letter letter "O"; on_letter letter "U"; on_letter letter "P";
  on_letter letter "D"; rewrite ?andb_false_r; reflexivity.

Section SetupFacts.
Variable getRouteOption : string -> string -> value.
Variable base : string.

Lemma register_post (rs : CrudController.routes) (letter p : string) :
  table_get (CrudController.post
               (CrudController.register getRouteOption base rs letter)) p
  = if String.eqb p base && String.eqb letter "C"
    then Some (CrudController.entry getRouteOption
                 CrudController.create "create")
    else table_get (CrudController.post rs) p.
Proof. single_letter_step letter. Qed.

Lemma register_put (rs : CrudController.routes) (letter p : string) :
  table_get (CrudController.put
               (CrudController.register getRouteOption base rs letter)) p
  = if String.eqb p (base ++ "/:id") && String.eqb letter "U"
    then Some (CrudController.entry getRouteOption
                 CrudController.update "update")
    else table_get (CrudController.put rs) p.
Proof. single_letter_step letter. Qed.

Lemma register_patch (rs : CrudController.routes) (letter p : string) :
  table_get (CrudController.patch
               (CrudController.register getRouteOption base rs letter)) p
  = if String.eqb p (base ++ "/:id") && String.eqb letter "P"
    then Some (CrudController.entry getRouteOption
                 CrudController.update "update")
    else table_get (CrudController.patch rs) p.
Proof. single_letter_step letter. Qed.

Lemma register_delete (rs : CrudController.routes) (letter p : string) :
  table_get (CrudController.delete
               (CrudController.register getRouteOption base rs letter)) p
  = if String.eqb p (base ++ "/:id") && String.eqb letter "D"
    then Some (CrudController.entry getRouteOption
                 CrudController.destroy "destroy")
    else table_get (CrudController.delete rs) p.
Proof. single_letter_step letter. Qed.

Lemma has_letter_cons (c l : string) (ls : list string) :
  has_letter c (l :: ls) = String.eqb l c || has_letter c ls.
Proof. unfold has_letter. simpl. now rewrite String.eqb_sym. Qed.

Lemma fold_get (crud : list string) :
  forall rs p,
    table_get (CrudController.get
                 (fold_left (CrudController.register getRouteOption base)
                    crud rs)) p
    = if String.eqb p (base ++ "/count") && has_letter "T" crud
      then Some (CrudController.entry getRouteOption
                   CrudController.count "count")
      else if String.eqb p (base ++ ".:format?") && has_letter "R" crud
      then Some (CrudController.entry getRouteOption
                   CrudController.find "find")
      else if String.eqb p (base ++ "/:id.:format?") && has_letter "O" crud
      then Some (CrudController.entry getRouteOption
                   CrudController.findOne "findOne")
      else table_get (CrudController.get rs) p.
Proof.
  induction crud as [|l ls IH]; intros rs p.
  - simpl. now rewrite !andb_false_r.
  - cbn [fold_left]. rewrite IH, register_get, !has_letter_cons.
    bool_cases.
Qed.

Lemma fold_single
  (table : CrudController.routes -> list (string * CrudController.route))
  (path letter : string) (e : CrudController.route) :
  (forall rs l p,
     table_get (table (CrudController.register getRouteOption base rs l)) p
     = if String.eqb p path && String.eqb l letter then Some e
       else table_get (table rs) p) ->
  forall crud rs p,
    table_get (table (fold_left (CrudController.register getRouteOption base)
                        crud rs)) p
    = if String.eqb p path && has_letter letter crud then Some e
      else table_get (table rs) p.
Proof.
  intros Hstep crud. induction crud as [|l ls IH]; intros rs p.
  - simpl. now rewrite andb_false_r.
  - cbn [fold_left]. rewrite IH, Hstep, has_letter_cons.
    destruct (String.eqb p path), (String.eqb l letter),
      (has_letter letter ls); reflexivity.
Qed.
End SetupFacts.

(** X18. After [setupRoutes], a path of a method's table holds the
    route of a CRUD action exactly when the action's letter is among
    [this.crud], whatever the order and repetitions of the letters:
    [T], [R] and [O] give the GET routes [/count], [.:format?] and
    [/:id.:format?] under the base path, [C] the POST route of the base
    path, and [U], [P] and [D] the PUT, PATCH and DELETE routes of
    [/:id]; PUT and PATCH both name the [update] action with the
    options of [update].  Every other path keeps the inherited route,
    and a letter that is none of the seven adds nothing. *)
Theorem setupRoutes_table (getRouteOption : string -> string -> value)
  (path urlRoot : string) (crud : list string)
  (inherited : CrudController.routes) (p : string) :
  let base := CrudController.basePath path urlRoot in
  let routes :=
    CrudController.setupRoutes getRouteOption path urlRoot crud inherited in
  let entry := CrudController.entry getRouteOption in
  table_get (CrudController.get routes) p
  = (if String.eqb p (base ++ "/count") && has_letter "T" crud
     then Some (entry CrudController.count "count")
     else if String.eqb p (base ++ ".:format?") && has_letter "R" crud
     then Some (entry CrudController.find "find")
     else if String.eqb p (base ++ "/:id.:format?") && has_letter "O" crud
     then Some (entry CrudController.findOne "findOne")
     else table_get (CrudController.get inherited) p)
  /\ table_get (CrudController.post routes) p
     = (if String.eqb p base && has_letter "C" crud
        then Some (entry CrudController.create "create")
        else table_get (CrudController.post inherited) p)
  /\ table_get (CrudController.put routes) p
     = (if String.eqb p (base ++ "/:id") && has_letter "U" crud
        then Some (entry CrudController.update "update")
        else table_get (CrudController.put inherited) p)
  /\ table_get (CrudController.patch routes) p
     = (if String.eqb p (base ++ "/:id") && has_letter "P" crud
        then Some (entry CrudController.update "update")
        else table_get (CrudController.patch inherited) p)
  /\ table_get (CrudController.delete routes) p
     = (if String.eqb p (base ++ "/:id") && has_letter "D" crud
        then Some (entry CrudController.destroy "destroy")
        else table_get (CrudController.delete inherited) p).
Proof.
  intros base routes entry. unfold routes, CrudController.setupRoutes.
  fold base. split; [apply fold_get|].
  split; [apply (fold_single getRouteOption base CrudController.post);
          apply register_post|].
  split; [apply (fold_single getRouteOption base CrudController.put);
          apply register_put|].
  split; [apply (fold_single getRouteOption base CrudController.patch);
          apply register_patch|].
  apply (fold_single getRouteOption base CrudController.delete).
  apply register_delete.
Qed.

(** * The lock *)

(** X19. On attributes that are an object, [lock] saves the model with
    [locked] set to [true] and every other attribute as it was, unless
    [locked] is already truthy, when it is rejected; a model just
    locked cannot be locked again, [unlock] saves it with [locked] set
    to [false], after which it can be locked again; and [unlock] leaves
    a model that is not locked untouched, without saving it. *)
Theorem lock_protocol (props : list (string * value)) :
  (lock (VObj props)
   = (if truthy (get (VObj props) "locked")
      then Rejected "Model already locked."
      else Saved (VObj (assign props "locked" (VBool true)))))
  /\ (unlock (VObj props)
      = (if truthy (get (VObj props) "locked")
         then Saved (VObj (assign props "locked" (VBool false)))
         else Untouched (VObj props)))
  /\ (forall k, k <> "locked" ->
      lookup k (assign props "locked" (VBool true)) = lookup k props)
  /\ lock (VObj (assign props "locked" (VBool true)))
     = Rejected "Model already locked."
  /\ (exists props',
        unlock (VObj (assign props "locked" (VBool true)))
        = Saved (VObj props')
        /\ get (VObj props') "locked" = VBool false
        /\ unlock (VObj props') = Untouched (VObj props')
        /\ exists props'',
             lock (VObj props') = Saved (VObj props'')
             /\ get (VObj props'') "locked" = VBool true).
Proof.
  assert (Hget : forall ps, model_get (VObj ps) (VStr "locked")
                            = Ok (get (VObj ps) "locked")).
  { intros ps. unfold model_get, getDeep.
    replace (split "." "locked") with ["locked"] by reflexivity.
    cbn [walk member bind].
    now destruct (isUndefined (get (VObj ps) "locked")
                  || isNull (get (VObj ps) "locked")). }
  assert (Hset : forall ps b,
            get (VObj (assign ps "locked" (VBool b))) "locked" = VBool b).
  { intros ps b. simpl. now rewrite lookup_assign. }
  unfold lock, unlock. rewrite !Hget.
  split; [now destruct (truthy _)|].
  split; [now destruct (truthy _)|].
  split.
  { intros k Hk. rewrite lookup_assign. apply String.eqb_neq in Hk.
    now rewrite Hk. }
  rewrite Hset. split; [reflexivity|].
  exists (assign (assign props "locked" (VBool true)) "locked" (VBool false)).
  simpl truthy. cbv iota. simpl negb. cbv iota. cbn [set].
  split; [reflexivity|]. rewrite !Hget, !Hset. split; [reflexivity|].
  split; [reflexivity|].
  eexists. split; [reflexivity|]. apply Hset.
Qed.
